(** * Prism-API embedding service ([embedding-service/app.py])

    A shallow embedding of the Flask request handlers of the embedding
    service: the lazily loaded process-wide model ([load_model]), the three
    POST handlers ([embed], [embed_batch], [similarity]) and [health].

    Flask, sentence-transformers and numpy are libraries the service
    imports; they are not part of the repository.  Their behaviour enters
    the development as data:
    - the outcome of [request.get_json()] is the handlers' input;
    - the [SentenceTransformer] constructor and the model's [encode] are
      oracles;
    - the arithmetic of numpy's arrays is an interface ([Arith]) that the
      cosine computation is written against: the scalar operations and
      the reduction with which the BLAS library behind [np.dot] adds up
      products. *)

From Stdlib Require Import ZArith List String Bool Lia.
From Stdlib Require Import Floats.SpecFloat.
From stdpp Require Import gmap strings pretty.
Import ListNotations.

Set Warnings "-register-all".

(** ** Python values obtained from JSON *)

(** What [request.get_json()] returns: [None], [bool], [int], [float],
    [str], [list] or [dict]. *)
Inductive json :=
| JNull
| JBool (b : bool)
| JInt (z : Z)
| JFloat (f : spec_float)
| JStr (s : string)
| JArr (items : list json)
| JObj (members : gmap string json).

(** Python truthiness ([bool(x)], what [if not x] tests). *)
Definition truthy (v : json) : bool :=
  match v with
  | JNull => false
  | JBool b => b
  | JInt z => negb (z =? 0)%Z
  | JFloat (S754_zero _) => false
  | JFloat _ => true
  | JStr s => negb (String.eqb s "")
  | JArr items => match items with [] => false | _ :: _ => true end
  | JObj members => negb (bool_decide (size members = 0))
  end.

(** [type(x).__name__]. *)
Definition type_name (v : json) : string :=
  match v with
  | JNull => "NoneType"
  | JBool _ => "bool"
  | JInt _ => "int"
  | JFloat _ => "float"
  | JStr _ => "str"
  | JArr _ => "list"
  | JObj _ => "dict"
  end.

(** [isinstance(x, list)]. *)
Definition is_list (v : json) : bool :=
  match v with JArr _ => true | _ => false end.

(** ** Exceptions *)

(** A raised exception: its class and [str(e)]. *)
Record exn := Exn { exn_class : string; exn_str : string }.

Definition AttributeError (v : json) (attr : string) : exn :=
  Exn "AttributeError"
      ("'" +:+ type_name v +:+ "' object has no attribute '" +:+ attr +:+ "'").

(** [data.get(key, default)]: defined on dicts only. *)
Definition dict_get (data : json) (key : string) (default : json) : exn + json :=
  match data with
  | JObj members => inr (match members !! key with Some v => v | None => default end)
  | _ => inl (AttributeError data "get")
  end.

Arguments truthy : simpl never.
Arguments dict_get : simpl never.

(** Request bodies with the fields the endpoints read. *)
Definition embed_body (text : json) : json :=
  JObj {[ "text" := text ]}.
Definition batch_body (texts : json) : json :=
  JObj {[ "texts" := texts ]}.
Definition batch_body_sized (texts batch_size : json) : json :=
  JObj (<[ "batch_size" := batch_size ]> {[ "texts" := texts ]}).
Definition similarity_body (text1 text2 : json) : json :=
  JObj (<[ "text1" := text1 ]> {[ "text2" := text2 ]}).

(** ** numpy scalars *)

(** The arithmetic the cosine computation uses: the element type of the
    embedding vectors with its product, quotient and square root, the test
    for a zero divisor, and [fsum], the reduction [np.dot] applies to the
    products of corresponding elements.  In which order and in which
    precision that reduction accumulates is the BLAS library's business. *)
Class Arith (F : Type) := {
  fmul : F -> F -> F;
  fsum : list F -> F;
  fdiv : F -> F -> F;
  fsqrt : F -> F;
  fis_zero : F -> bool;
}.

(** ** The service ([app.py]) *)

Module App.

Section Service.

(** The element type of embedding vectors. *)
Context {F : Type} `{Arith F}.

(** The array [encode] returns with [convert_to_numpy=True]: a 1-d array
    (one vector) or a 2-d array (a stack of vectors). *)
Inductive ndarray :=
| Vec (v : list F)
| Mat (rows : list (list F)).

(** [len(a)] *)
Definition nd_len (a : ndarray) : nat :=
  match a with Vec v => length v | Mat rows => length rows end.

(** A loaded [SentenceTransformer].  [encode m sentences batch_size] is
    [m.encode(sentences, convert_to_numpy=True)], with the [batch_size]
    keyword when the caller passes one. *)
Record SentenceTransformer := {
  get_sentence_embedding_dimension : Z;
  encode : json -> option json -> exn + ndarray;
}.

(** ** Process state and effects *)

Inductive event :=
| Construct (name : string)
| Encode (sentences : json) (batch_size : option json)
| LogInfo (msg : string)
| LogError (msg : string).

(** The global [model] and the trace of what the process did so far
    (latest event last). *)
Record state := State {
  model : option SentenceTransformer;
  trace : list event;
}.

Definition emit (ev : event) (s : state) : state :=
  State (model s) (trace s ++ [ev]).

Definition set_model (m : SentenceTransformer) (s : state) : state :=
  State (Some m) (trace s).

Definition is_construct (ev : event) : bool :=
  match ev with Construct _ => true | _ => false end.

(** Number of times the constructor has been called. *)
Definition loads (s : state) : nat :=
  length (List.filter is_construct (trace s)).

Definition is_encode (ev : event) : bool :=
  match ev with Encode _ _ => true | _ => false end.

(** The calls made to the model's [encode]. *)
Definition encode_calls (s : state) : list event :=
  List.filter is_encode (trace s).

(** [MODEL_NAME = os.getenv('MODEL_NAME', 'all-MiniLM-L6-v2')] *)
Variable MODEL_NAME : string.

(** [SentenceTransformer(name)]: the outcome of the [n]-th call (counting
    from 0) of the constructor in this process. *)
Variable SentenceTransformer_new : string -> nat -> exn + SentenceTransformer.

(** Computations that read and write the process state and may raise. *)
Definition M (A : Type) : Type := state -> (exn + A) * state.

Definition ret {A} (a : A) : M A := fun s => (inr a, s).
Definition bind {A B} (c : M A) (k : A -> M B) : M B :=
  fun s => match c s with
           | (inl e, s') => (inl e, s')
           | (inr a, s') => k a s'
           end.
Definition lift {A} (r : exn + A) : M A := fun s => (r, s).
Definition tell (ev : event) : M unit := fun s => (inr tt, emit ev s).

Notation "'let*' x := c 'in' k" := (bind c (fun x => k))
  (at level 10, x name, c at level 100, k at level 200, only parsing).

(** ** [load_model] *)

Definition load_model : M SentenceTransformer := fun s =>
  match model s with
  | Some m => (inr m, s)
  | None =>
      let s1 := emit (LogInfo ("Loading model: " +:+ MODEL_NAME)) s in
      let s2 := emit (Construct MODEL_NAME) s1 in
      match SentenceTransformer_new MODEL_NAME (loads s1) with
      | inl e => (inl e, s2)
      | inr m =>
          let s3 := set_model m s2 in
          (inr m,
           emit (LogInfo ("Model loaded! Dimension: "
                          +:+ pretty (get_sentence_embedding_dimension m))) s3)
      end
  end.

(** ** Responses *)

(** The quotient of a numpy scalar division.  Dividing by zero does not
    raise: numpy flags the condition and yields nan or an infinity,
    determined by the numerator. *)
Inductive quotient :=
| Quot (q : F)
| ZeroDivide (numerator : F).

Inductive payload :=
| Error (error : string)
| Health (status : string) (model_name : string) (dimension : Z)
| Unhealthy (status : string) (error : string)
| Embedding (embedding : ndarray) (dimension : nat) (model_name : string)
| Embeddings (embeddings : list (list F)) (count : nat) (dimension : nat)
             (model_name : string)
| Similarity (similarity : quotient) (text1 text2 : json) (model_name : string).

Record response := Response { body : payload; status_code : Z }.

(** The score a response reports, if it is a similarity response. *)
Definition score_of (r : response) : option quotient :=
  match body r with
  | Similarity score _ _ _ => Some score
  | _ => None
  end.

(** [return jsonify(...)] and [return jsonify(...), code] *)
Definition ok (p : payload) : response := Response p 200.

(** The handlers' [try: ... except Exception as e:] frame: the body either
    returns a response or raises; a raised exception is logged and turned
    into a 500 response carrying [str(e)]. *)
Definition guarded (log_prefix : string) (c : M response) : state -> response * state :=
  fun s => match c s with
           | (inr r, s') => (r, s')
           | (inl e, s') =>
               (Response (Error (exn_str e)) 500,
                emit (LogError (log_prefix +:+ exn_str e)) s')
           end.

(** ** numpy operations on the encoded arrays *)

Definition IndexError (i size : nat) : exn :=
  Exn "IndexError"
      ("index " +:+ pretty i +:+ " is out of bounds for axis 0 with size "
       +:+ pretty size).

(** [a[i]] on the first axis. *)
Definition getitem {A} (a : list A) (i : nat) : exn + A :=
  match nth_error a i with
  | Some x => inr x
  | None => inl (IndexError i (length a))
  end.

(** The products of corresponding elements. *)
Definition products (a b : list F) : list F :=
  map (fun p => fmul (fst p) (snd p)) (combine a b).

(** The inner product: the products, added up by the library. *)
Definition dot_sum (a b : list F) : F := fsum (products a b).

(** [np.dot(a, b)] on two 1-d arrays; their sizes must agree. *)
Definition np_dot (a b : list F) : exn + F :=
  if (length a =? length b)%nat then inr (dot_sum a b)
  else inl (Exn "ValueError"
              ("shapes (" +:+ pretty (length a) +:+ ",) and ("
               +:+ pretty (length b) +:+ ",) not aligned: "
               +:+ pretty (length a) +:+ " (dim 0) != "
               +:+ pretty (length b) +:+ " (dim 0)")).

(** [np.linalg.norm(a)]: the square root of [a.dot(a)]. *)
Definition np_linalg_norm (a : list F) : F := fsqrt (dot_sum a a).

(** [x / y] on numpy scalars. *)
Definition np_divide (x y : F) : quotient :=
  if fis_zero y then ZeroDivide x else Quot (fdiv x y).

(** The cosine expression of [similarity] on two vectors:
    [np.dot(a, b) / (np.linalg.norm(a) * np.linalg.norm(b))]. *)
Definition cosine (a b : list F) : exn + quotient :=
  match np_dot a b with
  | inl e => inl e
  | inr d => inr (np_divide d (fmul (np_linalg_norm a) (np_linalg_norm b)))
  end.

(** The same expression on [embeddings[0]] and [embeddings[1]].  The items
    of a 2-d array are vectors; the items of a 1-d array are scalars, whose
    [np.dot] is their product and whose norm is that of a one-element
    array. *)
Definition cosine_of_first_two (embeddings : ndarray) : exn + quotient :=
  match embeddings with
  | Mat rows =>
      match getitem rows 0, getitem rows 1 with
      | inl e, _ => inl e
      | inr _, inl e => inl e
      | inr e0, inr e1 => cosine e0 e1
      end
  | Vec v =>
      match getitem v 0, getitem v 1 with
      | inl e, _ => inl e
      | inr _, inl e => inl e
      | inr x, inr y =>
          inr (np_divide (fmul x y)
                 (fmul (np_linalg_norm [x]) (np_linalg_norm [y])))
      end
  end.

(** ** The handlers *)

(** [m.encode(...)], recorded in the trace. *)
Definition call_encode (m : SentenceTransformer) (sentences : json)
    (batch_size : option json) : M ndarray :=
  let* _ := tell (Encode sentences batch_size) in
  lift (encode m sentences batch_size).

Definition bad_request (msg : string) : M response :=
  ret (Response (Error msg) 400).

(** [GET /health] *)
Definition health : state -> response * state := fun s =>
  match load_model s with
  | (inr m, s') =>
      (ok (Health "healthy" MODEL_NAME (get_sentence_embedding_dimension m)), s')
  | (inl e, s') =>
      (Response (Unhealthy "unhealthy" (exn_str e)) 500,
       emit (LogError ("Health check failed: " +:+ exn_str e)) s')
  end.

(** [POST /embed].  [get_json] is the outcome of [request.get_json()]. *)
Definition embed (get_json : exn + json) : state -> response * state :=
  guarded "Embedding error: "
    (let* data := lift get_json in
     if negb (truthy data) then bad_request "Request body must be JSON" else
     let* text := lift (dict_get data "text" (JStr "")) in
     if negb (truthy text) then bad_request "Field 'text' is required" else
     let* m := load_model in
     let* embedding := call_encode m text None in
     ret (ok (Embedding embedding (nd_len embedding) MODEL_NAME))).

(** The response fields of [embed_batch], computed from the array that
    [encode] returned: iterating a 2-d array yields its rows; iterating a
    1-d array yields scalars, which have no [len]. *)
Definition batch_payload (embeddings : ndarray) : exn + payload :=
  match embeddings with
  | Mat rows =>
      inr (Embeddings rows (length rows)
             (match rows with r :: _ => length r | [] => 0%nat end)
             MODEL_NAME)
  | Vec [] => inr (Embeddings [] 0 0 MODEL_NAME)
  | Vec (_ :: _) =>
      inl (Exn "TypeError" "object of type 'numpy.float32' has no len()")
  end.

(** [POST /embed/batch] *)
Definition embed_batch (get_json : exn + json) : state -> response * state :=
  guarded "Batch embedding error: "
    (let* data := lift get_json in
     if negb (truthy data) then bad_request "Request body must be JSON" else
     let* texts := lift (dict_get data "texts" (JArr [])) in
     if negb (truthy texts) || negb (is_list texts)
     then bad_request "Field 'texts' must be a non-empty array" else
     let* batch_size := lift (dict_get data "batch_size" (JInt 32)) in
     let* m := load_model in
     let* embeddings := call_encode m texts (Some batch_size) in
     let* p := lift (batch_payload embeddings) in
     ret (ok p)).

(** [POST /similarity] *)
Definition similarity (get_json : exn + json) : state -> response * state :=
  guarded "Similarity error: "
    (let* data := lift get_json in
     if negb (truthy data) then bad_request "Request body must be JSON" else
     let* text1 := lift (dict_get data "text1" (JStr "")) in
     let* text2 := lift (dict_get data "text2" (JStr "")) in
     if negb (truthy text1) || negb (truthy text2)
     then bad_request "Fields 'text1' and 'text2' are required" else
     let* m := load_model in
     let* embeddings := call_encode m (JArr [text1; text2]) None in
     let* similarity_score := lift (cosine_of_first_two embeddings) in
     ret (ok (Similarity similarity_score text1 text2 MODEL_NAME))).

(** ** [load_model] under threads

    The server runs with [threaded=True]: several request threads may be
    inside [load_model] at once.  One activation of [load_model] is a
    sequence of steps on the shared state; the interpreter may switch
    threads between any two of them. *)

Inductive pc :=
| AtTest                              (* line 30: [if model is None] *)
| AtLogLoading                        (* line 31 *)
| AtConstruct                         (* line 32: [SentenceTransformer(MODEL_NAME)] *)
| AtStore (m : SentenceTransformer)   (* line 32: [model = ...] *)
| AtLogLoaded                         (* line 33 *)
| AtReturn                            (* line 34: [return model] *)
| Returned (r : option SentenceTransformer)
| Raised (e : exn).

Definition step (s : state) (p : pc) : state * pc :=
  match p with
  | AtTest =>
      (s, match model s with None => AtLogLoading | Some _ => AtReturn end)
  | AtLogLoading =>
      (emit (LogInfo ("Loading model: " +:+ MODEL_NAME)) s, AtConstruct)
  | AtConstruct =>
      (emit (Construct MODEL_NAME) s,
       match SentenceTransformer_new MODEL_NAME (loads s) with
       | inl e => Raised e
       | inr m => AtStore m
       end)
  | AtStore m => (set_model m s, AtLogLoaded)
  | AtLogLoaded =>
      match model s with
      | Some m =>
          (emit (LogInfo ("Model loaded! Dimension: "
                          +:+ pretty (get_sentence_embedding_dimension m))) s,
           AtReturn)
      | None =>
          (s, Raised (AttributeError JNull "get_sentence_embedding_dimension"))
      end
  | AtReturn => (s, Returned (model s))
  | Returned _ | Raised _ => (s, p)
  end.

(** One thread running alone for [n] steps. *)
Fixpoint steps (n : nat) (s : state) (p : pc) : state * pc :=
  match n with
  | O => (s, p)
  | S n' => let '(s', p') := step s p in steps n' s' p'
  end.

(** The shared state and the control point of every thread. *)
Definition config : Type := state * list pc.

(** Thread [tid] takes one step. *)
Definition step_thread (c : config) (tid : nat) : config :=
  match snd c !! tid with
  | Some p => let '(s', p') := step (fst c) p in (s', <[tid := p']> (snd c))
  | None => c
  end.

(** A schedule names the thread that moves at each step. *)
Definition run (schedule : list nat) (c : config) : config :=
  fold_left step_thread schedule c.

(** A process that has not loaded the model, with [n] threads entering
    [load_model]. *)
Definition cold : state := State None [].
Definition cold_start (n : nat) : config := (cold, replicate n AtTest).

(** A handle that some call of the constructor returned. *)
Definition constructed (m : SentenceTransformer) : Prop :=
  exists attempt, SentenceTransformer_new MODEL_NAME attempt = inr m.

(** Threads that have not yet passed the constructor call. *)
Definition before_construct (p : pc) : bool :=
  match p with AtTest | AtLogLoading | AtConstruct => true | _ => false end.

Definition pending (threads : list pc) : nat :=
  length (List.filter before_construct threads).

(** What holds of a thread at each control point: a value about to be
    stored came from the constructor; past the store, or past a test that
    found the model, the global is set; a returned value is a constructed
    handle. *)
Definition pc_ok (s : state) (p : pc) : Prop :=
  match p with
  | AtStore m => constructed m
  | AtLogLoaded | AtReturn => model s <> None
  | Returned r => exists m, r = Some m /\ constructed m
  | _ => True
  end.

(** The global, when set, holds a constructed handle. *)
Definition model_ok (s : state) : Prop :=
  forall m, model s = Some m -> constructed m.

(** The invariant of [n] threads racing through [load_model]. *)
Definition race_invariant (n : nat) (c : config) : Prop :=
  (loads (fst c) + pending (snd c) <= n)%nat /\
  model_ok (fst c) /\
  Forall (pc_ok (fst c)) (snd c).

(** What holds of a thread once the model is loaded: it is about to test,
    about to return, or has returned the loaded handle. *)
Definition pc_warm (m : SentenceTransformer) (p : pc) : Prop :=
  p = AtTest \/ p = AtReturn \/ p = Returned (Some m).

(** ** Error handlers, routing and the entry point *)

(** [@app.errorhandler(404)] and [@app.errorhandler(500)]: the argument is
    the error Flask caught; neither handler looks at it. *)
Definition not_found (error : exn) : response :=
  Response (Error "Endpoint not found") 404.

Definition internal_error (error : exn) : response :=
  Response (Error "Internal server error") 500.

(** A request as Flask's URL map has resolved it: one of the four routes
    (the POST routes with the outcome of [request.get_json()]), or no
    matching rule, in which case Flask raises [NotFound] and calls the 404
    handler with it. *)
Inductive request :=
| GET_health
| POST_embed (get_json : exn + json)
| POST_embed_batch (get_json : exn + json)
| POST_similarity (get_json : exn + json)
| Unmatched (error : exn).

Definition dispatch (r : request) : state -> response * state :=
  match r with
  | GET_health => health
  | POST_embed get_json => embed get_json
  | POST_embed_batch get_json => embed_batch get_json
  | POST_similarity get_json => similarity get_json
  | Unmatched error => fun s => (not_found error, s)
  end.

(** Requests handled one after another. *)
Fixpoint serve (requests : list request) (s : state) : list response * state :=
  match requests with
  | [] => ([], s)
  | r :: rest =>
      let '(resp, s1) := dispatch r s in
      let '(resps, s2) := serve rest s1 in
      (resp :: resps, s2)
  end.

(** [HOST = os.getenv('HOST', '0.0.0.0')], [PORT = int(os.getenv('PORT', 8765))] *)
Variable HOST : string.
Variable PORT : Z.

(** How the script ends: [exit(code)], or by running off its end. *)
Inductive termination :=
| Exit (code : Z)
| EndOfScript.

(** How [app.run] can end: it returns when the server is stopped; it
    raises an [Exception]; or it raises [SystemExit] (the server calls
    [sys.exit] when it cannot bind the port), which is not an [Exception]
    and passes through [except Exception]. *)
Inductive app_run_end :=
| Returns
| RaisesException (e : exn)
| RaisesSystemExit (code : Z).

(** The [if __name__ == '__main__':] block.  [app_run] is
    [app.run(host=HOST, port=PORT, debug=False, threaded=True)]: it is
    given the process state at the moment the server starts and yields how
    it ended and the state then. *)
Definition main (app_run : state -> app_run_end * state) (s : state)
    : termination * state :=
  let failed (e : exn) (s' : state) :=
    (Exit 1, emit (LogError ("Failed to start server: " +:+ exn_str e)) s') in
  match load_model s with
  | (inl e, s1) => failed e s1
  | (inr _, s1) =>
      let s2 := emit (LogInfo ("Starting server on " +:+ HOST +:+ ":"
                               +:+ pretty PORT)) s1 in
      match app_run s2 with
      | (Returns, s3) => (EndOfScript, s3)
      | (RaisesException e, s3) => failed e s3
      | (RaisesSystemExit code, s3) => (Exit code, s3)
      end
  end.

(** A server that handles the given requests one after another and then
    stops. *)
Definition serving (requests : list request) (s : state) : app_run_end * state :=
  (Returns, snd (serve requests s)).

(** ** How a POST handler can end *)

(** The states a POST handler can be in when an exception reaches its
    [except]: nothing done yet, [load_model] called, or [load_model] and
    then [encode] called. *)
Definition reached (s s1 : state) : Prop :=
  s1 = s \/
  s1 = snd (load_model s) \/
  exists m x b, fst (load_model s) = inr m /\
                s1 = emit (Encode x b) (snd (load_model s)).

(** Rejected by validation; failed with an exception, which is logged;
    or answered, after [load_model] and one call of [encode]. *)
Inductive outcome (log_prefix : string) (s : state) : response -> state -> Prop :=
| Rejected msg :
    outcome log_prefix s (Response (Error msg) 400) s
| Failed e s1 :
    reached s s1 ->
    outcome log_prefix s (Response (Error (exn_str e)) 500)
      (emit (LogError (log_prefix +:+ exn_str e)) s1)
| Answered p m x b :
    fst (load_model s) = inr m ->
    (forall msg, p <> Error msg) ->
    outcome log_prefix s (Response p 200)
      (emit (Encode x b) (snd (load_model s))).

(** ** Where a POST handler can raise *)

(** [e] is the exception raised inside the [try] of [embed]: by
    [request.get_json()]; by [data.get] on a truthy body; by [load_model]
    after validation; or by [encode]. *)
Definition raised_in_embed (get_json : exn + json) (s : state) (e : exn) : Prop :=
  get_json = inl e \/
  exists data, get_json = inr data /\ truthy data = true /\
    (dict_get data "text" (JStr "") = inl e \/
     exists text,
       dict_get data "text" (JStr "") = inr text /\ truthy text = true /\
       (fst (load_model s) = inl e \/
        exists m, fst (load_model s) = inr m /\ encode m text None = inl e)).

(** The same for [embed_batch], where the response fields can also raise
    (the [len] of a scalar). *)
Definition raised_in_embed_batch (get_json : exn + json) (s : state) (e : exn)
    : Prop :=
  get_json = inl e \/
  exists data, get_json = inr data /\ truthy data = true /\
    (dict_get data "texts" (JArr []) = inl e \/
     exists texts batch_size,
       dict_get data "texts" (JArr []) = inr texts /\
       negb (truthy texts) || negb (is_list texts) = false /\
       dict_get data "batch_size" (JInt 32) = inr batch_size /\
       (fst (load_model s) = inl e \/
        exists m, fst (load_model s) = inr m /\
          (encode m texts (Some batch_size) = inl e \/
           exists embeddings,
             encode m texts (Some batch_size) = inr embeddings /\
             batch_payload embeddings = inl e))).

(** The same for [similarity], where indexing the array and [np.dot] can
    also raise. *)
Definition raised_in_similarity (get_json : exn + json) (s : state) (e : exn)
    : Prop :=
  get_json = inl e \/
  exists data, get_json = inr data /\ truthy data = true /\
    (dict_get data "text1" (JStr "") = inl e \/
     exists text1 text2,
       dict_get data "text1" (JStr "") = inr text1 /\
       dict_get data "text2" (JStr "") = inr text2 /\
       truthy text1 = true /\ truthy text2 = true /\
       (fst (load_model s) = inl e \/
        exists m, fst (load_model s) = inr m /\
          (encode m (JArr [text1; text2]) None = inl e \/
           exists embeddings,
             encode m (JArr [text1; text2]) None = inr embeddings /\
             cosine_of_first_two embeddings = inl e))).

End Service.

Arguments ndarray : clear implicits.
Arguments SentenceTransformer : clear implicits.
Arguments state : clear implicits.
Arguments quotient : clear implicits.
Arguments payload : clear implicits.
Arguments response : clear implicits.
Arguments pc : clear implicits.
Arguments config : clear implicits.
Arguments load_model : simpl never.
Arguments cosine_of_first_two : simpl never.
Arguments batch_payload : simpl never.

End App.

Import App.

(** ** binary32 *)

(** IEEE 754 binary32, the element type of the arrays [encode] returns:
    24 bits of precision, exponents below 128, round to nearest even.  The
    scalar operations are fixed by the standard; the reduction of [np.dot]
    is a parameter. *)
Module Float32.

Definition prec : Z := 24.
Definition emax : Z := 128.

Definition is_zero (x : spec_float) : bool :=
  match x with S754_zero _ => true | _ => false end.

(** Neither an infinity nor a nan. *)
Definition is_finite (x : spec_float) : bool :=
  match x with S754_zero _ | S754_finite _ _ _ => true | _ => false end.

Definition arith (reduce : list spec_float -> spec_float) : Arith spec_float := {|
  fmul := SFmul prec emax;
  fsum := reduce;
  fdiv := SFdiv prec emax;
  fsqrt := SFsqrt prec emax;
  fis_zero := is_zero;
|}.

(** A binary64 value rounded to binary32. *)
Definition of_double (x : spec_float) : spec_float :=
  match x with
  | S754_finite s m e => binary_round prec emax s m e
  | _ => x
  end.

(** The reduction of OpenBLAS's [sdot] on vectors of fewer than 32
    elements: the binary32 products are added in index order to a binary64
    accumulator that starts at 0.0, and the total is rounded to binary32
    once. *)
Definition accumulate_double (products : list spec_float) : spec_float :=
  of_double (fold_left (SFadd 53 1024) products (S754_zero false)).

#[global] Instance blas : Arith spec_float := arith accumulate_double.

(** The binary32 value of an integer. *)
Definition of_Z (z : Z) : spec_float := binary_normalize prec emax z 0 false.

(** 2^e, for an exponent in the range of binary32. *)
Definition pow2 (e : Z) : spec_float := binary_round prec emax false 1 e.

End Float32.

(** A small deterministic model used to run the handlers: a string is
    embedded in two dimensions, as its length minus one and the parity of
    its length plus one; anything else is rejected. *)
Module Toy.

Definition enc_Z (s : string) : list Z :=
  [Z.of_nat (String.length s) - 1; (Z.of_nat (String.length s) + 1) mod 2]%Z.

Definition not_a_string : exn := Exn "TypeError" "expected a string".

Section WithScalars.
Context {F : Type} (of_Z : Z -> F).

Definition enc (s : string) : list F := map of_Z (enc_Z s).

Fixpoint enc_all (items : list json) : exn + list (list F) :=
  match items with
  | [] => inr []
  | JStr s :: rest =>
      match enc_all rest with
      | inl e => inl e
      | inr rows => inr (enc s :: rows)
      end
  | _ :: _ => inl not_a_string
  end.

Definition toy_encode (sentences : json) (batch_size : option json)
    : exn + ndarray F :=
  match sentences with
  | JStr s => inr (Vec (enc s))
  | JArr items =>
      match enc_all items with
      | inl e => inl e
      | inr rows => inr (Mat rows)
      end
  | _ => inl not_a_string
  end.

Definition toy_model : SentenceTransformer F :=
  {| get_sentence_embedding_dimension := 2; encode := toy_encode |}.

(** The constructor always succeeds. *)
Definition always (name : string) (attempt : nat) : exn + SentenceTransformer F :=
  inr toy_model.

(** The constructor fails on its first call (the weights cannot be
    fetched) and succeeds afterwards. *)
Definition offline : exn := Exn "OSError" "cannot fetch model weights".

Definition flaky (name : string) (attempt : nat) : exn + SentenceTransformer F :=
  match attempt with
  | O => inl offline
  | S _ => inr toy_model
  end.

(** A model that encodes every input as the same stack of vectors. *)
Definition fixed_model (rows : list (list F)) : SentenceTransformer F :=
  {| get_sentence_embedding_dimension := 1;
     encode := fun _ _ => inr (Mat rows) |}.

Definition fixed (rows : list (list F)) (name : string) (attempt : nat)
    : exn + SentenceTransformer F :=
  inr (fixed_model rows).

End WithScalars.

Definition name : string := "all-MiniLM-L6-v2".

(** The toy model over binary32, behind a constructor that succeeds and
    behind one that fails once. *)
Definition always32 := always Float32.of_Z.
Definition flaky32 := flaky Float32.of_Z.

End Toy.

(** * Properties *)

(** ** Python values *)

Lemma truthy_dict_nonempty (o : gmap string json) :
  truthy (JObj o) = true <-> o <> ∅.
Proof.
  unfold truthy. rewrite negb_true_iff, bool_decide_eq_false.
  split; intros Hne Heq; apply Hne.
  - subst o. apply map_size_empty.
  - now apply map_size_empty_iff.
Qed.

Lemma dict_get_inr data key default v :
  dict_get data key default = inr v ->
  exists o, data = JObj o /\ v = match o !! key with Some x => x | None => default end.
Proof.
  destruct data; unfold dict_get; try discriminate.
  intros [= <-]. eauto.
Qed.

Lemma dict_get_some (o : gmap string json) key default v :
  o !! key = Some v -> dict_get (JObj o) key default = inr v.
Proof. intros Hk. unfold dict_get. now rewrite Hk. Qed.

Lemma dict_get_none (o : gmap string json) key default :
  o !! key = None -> dict_get (JObj o) key default = inr default.
Proof. intros Hk. unfold dict_get. now rewrite Hk. Qed.

Section Properties.

Context {F : Type} `{Arith F}.
Variable MODEL_NAME : string.
Variable SentenceTransformer_new : string -> nat -> exn + SentenceTransformer F.

Abbreviation load_model := (load_model MODEL_NAME SentenceTransformer_new).
Abbreviation health := (health MODEL_NAME SentenceTransformer_new).
Abbreviation embed := (embed MODEL_NAME SentenceTransformer_new).
Abbreviation embed_batch := (embed_batch MODEL_NAME SentenceTransformer_new).
Abbreviation similarity := (similarity MODEL_NAME SentenceTransformer_new).
Abbreviation step := (step MODEL_NAME SentenceTransformer_new).
Abbreviation steps := (steps MODEL_NAME SentenceTransformer_new).
Abbreviation step_thread := (step_thread MODEL_NAME SentenceTransformer_new).
Abbreviation run := (run MODEL_NAME SentenceTransformer_new).
Abbreviation constructed := (constructed MODEL_NAME SentenceTransformer_new).
Abbreviation pc_ok := (pc_ok MODEL_NAME SentenceTransformer_new).
Abbreviation model_ok := (model_ok MODEL_NAME SentenceTransformer_new).
Abbreviation race_invariant := (race_invariant MODEL_NAME SentenceTransformer_new).

(** ** The trace *)

Lemma loads_emit ev (s : state F) :
  loads (emit ev s) = (loads s + if is_construct ev then 1 else 0)%nat.
Proof.
  unfold loads, emit. simpl. rewrite List.filter_app, List.length_app. simpl.
  now destruct (is_construct ev).
Qed.

Lemma loads_set_model m (s : state F) : loads (set_model m s) = loads s.
Proof. reflexivity. Qed.

Lemma encode_calls_emit ev (s : state F) :
  encode_calls (emit ev s) = encode_calls s ++ (if is_encode ev then [ev] else []).
Proof.
  unfold encode_calls, emit. simpl. rewrite List.filter_app. simpl.
  now destruct (is_encode ev).
Qed.

(** ** [load_model], one call at a time *)

Lemma load_model_warm s m :
  model s = Some m -> load_model s = (inr m, s).
Proof. intros Hm. unfold App.load_model. now rewrite Hm. Qed.

Lemma load_model_cold_ok s m :
  model s = None ->
  SentenceTransformer_new MODEL_NAME (loads s) = inr m ->
  exists s', load_model s = (inr m, s') /\ model s' = Some m /\
             loads s' = S (loads s) /\ encode_calls s' = encode_calls s.
Proof.
  intros Hnone Hnew. unfold App.load_model.
  rewrite Hnone, loads_emit. simpl. rewrite Nat.add_0_r, Hnew.
  eexists. split; [reflexivity|]. split; [reflexivity|].
  split.
  - rewrite loads_emit, loads_set_model, !loads_emit. simpl. lia.
  - rewrite encode_calls_emit. simpl. rewrite app_nil_r.
    unfold encode_calls. simpl. rewrite !List.filter_app. simpl.
    now rewrite !app_nil_r.
Qed.

Lemma load_model_cold_fail s e :
  model s = None ->
  SentenceTransformer_new MODEL_NAME (loads s) = inl e ->
  exists s', load_model s = (inl e, s') /\ model s' = None /\
             loads s' = S (loads s) /\ encode_calls s' = encode_calls s.
Proof.
  intros Hnone Hnew. unfold App.load_model.
  rewrite Hnone, loads_emit. simpl. rewrite Nat.add_0_r, Hnew.
  eexists. split; [reflexivity|]. split; [assumption|].
  split.
  - rewrite !loads_emit. simpl. lia.
  - rewrite !encode_calls_emit. simpl. now rewrite !app_nil_r.
Qed.

(** Whatever the outcome, [load_model] never calls [encode], and a handle
    it returns is the one left in the global. *)
Lemma load_model_encode_calls s r s' :
  load_model s = (r, s') -> encode_calls s' = encode_calls s.
Proof.
  destruct (model s) as [m|] eqn:Hm.
  - rewrite (load_model_warm _ _ Hm). now intros [= _ <-].
  - destruct (SentenceTransformer_new MODEL_NAME (loads s)) as [e|m] eqn:Hnew.
    + destruct (load_model_cold_fail _ _ Hm Hnew) as (s1 & -> & _ & _ & Hc).
      now intros [= _ <-].
    + destruct (load_model_cold_ok _ _ Hm Hnew) as (s1 & -> & _ & _ & Hc).
      now intros [= _ <-].
Qed.

Lemma load_model_returns_global s m s' :
  load_model s = (inr m, s') -> model s' = Some m.
Proof.
  destruct (model s) as [m0|] eqn:Hm.
  - rewrite (load_model_warm _ _ Hm). now intros [= <- <-].
  - destruct (SentenceTransformer_new MODEL_NAME (loads s)) as [e|m1] eqn:Hnew.
    + destruct (load_model_cold_fail _ _ Hm Hnew) as (s1 & -> & _).
      discriminate.
    + destruct (load_model_cold_ok _ _ Hm Hnew) as (s1 & -> & Hs1 & _).
      now intros [= <- <-].
Qed.

(** C9.  When the constructor raises, [load_model] raises that same
    exception and the global [model] is still unset, as before the call;
    the next call therefore runs the constructor again, and its outcome is
    the outcome of that fresh attempt. *)
Theorem failed_load_retains_nothing s e :
  model s = None ->
  SentenceTransformer_new MODEL_NAME (loads s) = inl e ->
  exists s',
    load_model s = (inl e, s') /\ model s' = model s /\
    loads s' = S (loads s) /\
    forall r s'', load_model s' = (r, s'') ->
      r = SentenceTransformer_new MODEL_NAME (loads s') /\
      loads s'' = S (loads s').
Proof.
  intros Hnone Hnew.
  destruct (load_model_cold_fail _ _ Hnone Hnew) as (s' & Hl & Hm & Hn & _).
  exists s'. repeat split; try assumption; try congruence.
  - destruct (SentenceTransformer_new MODEL_NAME (loads s')) as [e'|m'] eqn:Hnew'.
    + destruct (load_model_cold_fail _ _ Hm Hnew') as (s2 & Hl2 & _). congruence.
    + destruct (load_model_cold_ok _ _ Hm Hnew') as (s2 & Hl2 & _). congruence.
  - destruct (SentenceTransformer_new MODEL_NAME (loads s')) as [e'|m'] eqn:Hnew'.
    + destruct (load_model_cold_fail _ _ Hm Hnew') as (s2 & Hl2 & _ & Hn2 & _).
      congruence.
    + destruct (load_model_cold_ok _ _ Hm Hnew') as (s2 & Hl2 & _ & Hn2 & _).
      congruence.
Qed.

(** ** [load_model] as a thread *)

(** A thread that runs alone performs [load_model]. *)
Lemma steps_load_model s :
  steps 6 s AtTest =
  (snd (load_model s),
   match fst (load_model s) with
   | inr m => Returned (Some m)
   | inl e => Raised e
   end).
Proof.
  unfold App.load_model. simpl.
  destruct (model s) as [m|] eqn:Hm; simpl.
  - now rewrite Hm.
  - destruct (SentenceTransformer_new MODEL_NAME _) as [e|m]; reflexivity.
Qed.

Lemma pending_replicate n : pending (F := F) (replicate n AtTest) = n.
Proof. unfold pending. induction n; simpl; congruence. Qed.

Lemma pending_insert (ps : list (pc F)) i p p' :
  ps !! i = Some p ->
  (pending (<[i := p']> ps) + (if before_construct p then 1 else 0) =
   pending ps + (if before_construct p' then 1 else 0))%nat.
Proof.
  unfold pending. revert i. induction ps as [|q ps IH]; intros [|i] Hi;
    simpl in *; try discriminate.
  - injection Hi as ->.
    destruct (before_construct p), (before_construct p'); simpl; lia.
  - specialize (IH i Hi). destruct (before_construct q); simpl; lia.
Qed.

(** A step never unsets the global and never lowers the count of loads
    by more than the thread's own passage through the constructor. *)
Lemma step_keeps_model s p s' p' :
  step s p = (s', p') -> model s <> None -> model s' <> None.
Proof.
  destruct p; simpl; try (intros [= <- <-]; now simpl).
  destruct (model s) eqn:Hm; intros [= <- <-]; simpl; congruence.
Qed.

Lemma step_loads s p s' p' :
  step s p = (s', p') ->
  (loads s' + (if before_construct p' then 1 else 0) <=
   loads s + (if before_construct p then 1 else 0))%nat.
Proof.
  destruct p; simpl.
  - intros [= <- <-]. destruct (model s); simpl; lia.
  - intros [= <- <-]. rewrite loads_emit. simpl. lia.
  - intros [= <- <-]. rewrite loads_emit.
    destruct (SentenceTransformer_new MODEL_NAME (loads s)); simpl; lia.
  - intros [= <- <-]. rewrite loads_set_model. simpl. lia.
  - destruct (model s); intros [= <- <-]; rewrite ?loads_emit; simpl; lia.
  - intros [= <- <-]. simpl. lia.
  - intros [= <- <-]. simpl. lia.
  - intros [= <- <-]. simpl. lia.
Qed.

Lemma step_model_ok s p s' p' :
  step s p = (s', p') -> model_ok s -> pc_ok s p -> model_ok s'.
Proof.
  unfold App.model_ok.
  destruct p; simpl; try (intros [= <- <-] Hok _; exact Hok).
  - intros [= <- <-] Hok Hm m0 [= <-]. exact Hm.
  - destruct (model s) eqn:Hm; intros [= <- <-] Hok _; simpl; now rewrite ?Hm.
Qed.

Lemma step_pc_ok s p s' p' :
  step s p = (s', p') -> model_ok s -> pc_ok s p -> pc_ok s' p'.
Proof.
  destruct p; simpl.
  - intros [= <- <-] _ _. destruct (model s) eqn:Hm; simpl; [congruence|exact I].
  - now intros [= <- <-].
  - intros [= <- <-] _ _.
    destruct (SentenceTransformer_new MODEL_NAME (loads s)) eqn:Hnew; simpl;
      [exact I|]. now exists (loads s).
  - now intros [= <- <-].
  - destruct (model s) eqn:Hm; intros [= <- <-] _ _; simpl; [congruence|exact I].
  - intros [= <- <-] Hok Hm. destruct (model s) as [m|] eqn:Hs; [|congruence].
    exists m. split; [reflexivity|]. now apply Hok.
  - now intros [= <- <-].
  - now intros [= <- <-].
Qed.

Lemma pc_ok_mono s s' p :
  (model s <> None -> model s' <> None) -> pc_ok s p -> pc_ok s' p.
Proof. destruct p; simpl; auto. Qed.

Lemma step_thread_invariant n c tid :
  race_invariant n c -> race_invariant n (step_thread c tid).
Proof.
  destruct c as [s ps]. unfold App.race_invariant, App.step_thread. simpl.
  intros (Hcount & Hmodel & Hpcs).
  destruct (ps !! tid) as [p|] eqn:Hp; [|now auto].
  destruct (step s p) as [s' p'] eqn:Hstep. simpl.
  assert (Hp_ok : pc_ok s p).
  { eapply Forall_lookup_1; eauto. }
  split; [|split].
  - pose proof (pending_insert ps tid p p' Hp).
    pose proof (step_loads _ _ _ _ Hstep). lia.
  - eapply step_model_ok; eauto.
  - apply Forall_insert.
    + eapply Forall_impl; [exact Hpcs|].
      intros q. apply pc_ok_mono. eapply step_keeps_model; eauto.
    + eapply step_pc_ok; eauto.
Qed.

Lemma run_invariant n schedule c :
  race_invariant n c -> race_invariant n (run schedule c).
Proof.
  unfold App.run. revert c.
  induction schedule as [|tid schedule IH]; intros c Hc; simpl; [exact Hc|].
  apply IH, step_thread_invariant, Hc.
Qed.

Lemma cold_start_invariant n : race_invariant n (cold_start n).
Proof.
  unfold App.race_invariant, cold_start. simpl. split; [|split].
  - rewrite pending_replicate. unfold loads. simpl. lia.
  - intros m. discriminate.
  - apply Forall_replicate. exact I.
Qed.

(** Once the model is loaded, threads find it, whatever the schedule:
    nothing is emitted and nothing is stored. *)
Lemma step_thread_warm s m ps tid :
  model s = Some m -> Forall (pc_warm m) ps ->
  exists ps', step_thread (s, ps) tid = (s, ps') /\ Forall (pc_warm m) ps'.
Proof.
  intros Hm Hps. unfold App.step_thread. simpl.
  destruct (ps !! tid) as [p|] eqn:Hp; [|now eauto].
  assert (Hp_warm : pc_warm m p).
  { eapply Forall_lookup_1; eauto. }
  destruct Hp_warm as [-> | [-> | ->]]; simpl; rewrite ?Hm;
    (eexists; split; [reflexivity|]); apply Forall_insert; trivial;
    unfold pc_warm; auto.
Qed.

Lemma run_warm s m schedule ps :
  model s = Some m -> Forall (pc_warm m) ps ->
  exists ps', run schedule (s, ps) = (s, ps') /\ Forall (pc_warm m) ps'.
Proof.
  intros Hm. unfold App.run. revert ps.
  induction schedule as [|tid schedule IH]; intros ps Hps; simpl; [now eauto|].
  destruct (step_thread_warm s m ps tid Hm Hps) as (ps1 & -> & Hps1).
  now apply IH.
Qed.

(** ** The handlers, path by path *)

Ltac unfold_handler :=
  unfold App.embed, App.embed_batch, App.similarity,
    guarded, bind, lift, bad_request, ret, call_encode, tell, ok; cbn.

(** [request.get_json()] raised: the handler's [except] answers 500. *)
Lemma embed_get_json_raises e s :
  embed (inl e) s =
  (Response (Error (exn_str e)) 500,
   emit (LogError ("Embedding error: " +:+ exn_str e)) s).
Proof. reflexivity. Qed.

Lemma embed_falsy data s :
  truthy data = false ->
  embed (inr data) s = (Response (Error "Request body must be JSON") 400, s).
Proof. intros Hd. unfold_handler. now rewrite Hd. Qed.

Lemma embed_not_dict data e s :
  truthy data = true ->
  dict_get data "text" (JStr "") = inl e ->
  embed (inr data) s =
  (Response (Error (exn_str e)) 500,
   emit (LogError ("Embedding error: " +:+ exn_str e)) s).
Proof. intros Hd Hg. unfold_handler. now rewrite Hd, Hg. Qed.

Lemma embed_no_text data text s :
  truthy data = true ->
  dict_get data "text" (JStr "") = inr text ->
  truthy text = false ->
  embed (inr data) s = (Response (Error "Field 'text' is required") 400, s).
Proof. intros Hd Hg Ht. unfold_handler. now rewrite Hd, Hg, Ht. Qed.

Lemma embed_load_fails data text e s s1 :
  truthy data = true ->
  dict_get data "text" (JStr "") = inr text ->
  truthy text = true ->
  load_model s = (inl e, s1) ->
  embed (inr data) s =
  (Response (Error (exn_str e)) 500,
   emit (LogError ("Embedding error: " +:+ exn_str e)) s1).
Proof.
  intros Hd Hg Ht Hl. unfold_handler. rewrite Hd, Hg, Ht. simpl.
  now rewrite Hl.
Qed.

Lemma embed_encodes data text m s s1 :
  truthy data = true ->
  dict_get data "text" (JStr "") = inr text ->
  truthy text = true ->
  load_model s = (inr m, s1) ->
  embed (inr data) s =
  match encode m text None with
  | inr embedding =>
      (Response (Embedding embedding (nd_len embedding) MODEL_NAME) 200,
       emit (Encode text None) s1)
  | inl e =>
      (Response (Error (exn_str e)) 500,
       emit (LogError ("Embedding error: " +:+ exn_str e))
         (emit (Encode text None) s1))
  end.
Proof.
  intros Hd Hg Ht Hl. unfold_handler. rewrite Hd, Hg, Ht. simpl.
  rewrite Hl. now destruct (encode m text None).
Qed.

Lemma embed_batch_falsy data s :
  truthy data = false ->
  embed_batch (inr data) s = (Response (Error "Request body must be JSON") 400, s).
Proof. intros Hd. unfold_handler. now rewrite Hd. Qed.

Lemma embed_batch_not_dict data e s :
  truthy data = true ->
  dict_get data "texts" (JArr []) = inl e ->
  embed_batch (inr data) s =
  (Response (Error (exn_str e)) 500,
   emit (LogError ("Batch embedding error: " +:+ exn_str e)) s).
Proof. intros Hd Hg. unfold_handler. now rewrite Hd, Hg. Qed.

Lemma embed_batch_bad_texts data texts s :
  truthy data = true ->
  dict_get data "texts" (JArr []) = inr texts ->
  negb (truthy texts) || negb (is_list texts) = true ->
  embed_batch (inr data) s =
  (Response (Error "Field 'texts' must be a non-empty array") 400, s).
Proof. intros Hd Hg Ht. unfold_handler. now rewrite Hd, Hg, Ht. Qed.

Lemma dict_get_total (o : gmap string json) key default :
  dict_get (JObj o) key default =
  inr (match o !! key with Some v => v | None => default end).
Proof. reflexivity. Qed.

Lemma embed_batch_load_fails data texts e s s1 :
  truthy data = true ->
  dict_get data "texts" (JArr []) = inr texts ->
  negb (truthy texts) || negb (is_list texts) = false ->
  load_model s = (inl e, s1) ->
  embed_batch (inr data) s =
  (Response (Error (exn_str e)) 500,
   emit (LogError ("Batch embedding error: " +:+ exn_str e)) s1).
Proof.
  intros Hd Hg Ht Hl.
  destruct (dict_get_inr _ _ _ _ Hg) as (o & -> & _).
  unfold_handler. rewrite Hd, Hg, Ht, dict_get_total. simpl. now rewrite Hl.
Qed.

Lemma embed_batch_encodes data texts batch_size m s s1 :
  truthy data = true ->
  dict_get data "texts" (JArr []) = inr texts ->
  negb (truthy texts) || negb (is_list texts) = false ->
  dict_get data "batch_size" (JInt 32) = inr batch_size ->
  load_model s = (inr m, s1) ->
  embed_batch (inr data) s =
  let s2 := emit (Encode texts (Some batch_size)) s1 in
  match encode m texts (Some batch_size) with
  | inr embeddings =>
      match batch_payload MODEL_NAME embeddings with
      | inr p => (Response p 200, s2)
      | inl e =>
          (Response (Error (exn_str e)) 500,
           emit (LogError ("Batch embedding error: " +:+ exn_str e)) s2)
      end
  | inl e =>
      (Response (Error (exn_str e)) 500,
       emit (LogError ("Batch embedding error: " +:+ exn_str e)) s2)
  end.
Proof.
  intros Hd Hg Ht Hb Hl. unfold_handler. rewrite Hd, Hg, Ht, Hb. simpl.
  rewrite Hl. simpl.
  destruct (encode m texts (Some batch_size)) as [e|a]; [reflexivity|].
  now destruct (batch_payload MODEL_NAME a).
Qed.

Lemma similarity_falsy data s :
  truthy data = false ->
  similarity (inr data) s = (Response (Error "Request body must be JSON") 400, s).
Proof. intros Hd. unfold_handler. now rewrite Hd. Qed.

Lemma similarity_bad_texts data text1 text2 s :
  truthy data = true ->
  dict_get data "text1" (JStr "") = inr text1 ->
  dict_get data "text2" (JStr "") = inr text2 ->
  negb (truthy text1) || negb (truthy text2) = true ->
  similarity (inr data) s =
  (Response (Error "Fields 'text1' and 'text2' are required") 400, s).
Proof. intros Hd H1 H2 Ht. unfold_handler. now rewrite Hd, H1, H2, Ht. Qed.

Lemma similarity_encodes data text1 text2 m s s1 :
  truthy data = true ->
  dict_get data "text1" (JStr "") = inr text1 ->
  dict_get data "text2" (JStr "") = inr text2 ->
  truthy text1 = true -> truthy text2 = true ->
  load_model s = (inr m, s1) ->
  similarity (inr data) s =
  let s2 := emit (Encode (JArr [text1; text2]) None) s1 in
  match encode m (JArr [text1; text2]) None with
  | inr embeddings =>
      match cosine_of_first_two embeddings with
      | inr score => (Response (Similarity score text1 text2 MODEL_NAME) 200, s2)
      | inl e =>
          (Response (Error (exn_str e)) 500,
           emit (LogError ("Similarity error: " +:+ exn_str e)) s2)
      end
  | inl e =>
      (Response (Error (exn_str e)) 500,
       emit (LogError ("Similarity error: " +:+ exn_str e)) s2)
  end.
Proof.
  intros Hd H1 H2 Ht1 Ht2 Hl. unfold_handler.
  rewrite Hd, H1, H2, Ht1, Ht2. simpl. rewrite Hl. simpl.
  destruct (encode m (JArr [text1; text2]) None) as [e|a]; [reflexivity|].
  now destruct (cosine_of_first_two a).
Qed.

(** With a usable body and a non-empty list of texts, [embed_batch] calls
    [encode] once, on the texts and the resolved batch size, and answers
    200 or 500. *)
Lemma embed_batch_valid_run data texts batch_size m s s1 :
  truthy data = true ->
  dict_get data "texts" (JArr []) = inr texts ->
  negb (truthy texts) || negb (is_list texts) = false ->
  dict_get data "batch_size" (JInt 32) = inr batch_size ->
  load_model s = (inr m, s1) ->
  encode_calls (snd (embed_batch (inr data) s)) =
    encode_calls s ++ [Encode texts (Some batch_size)] /\
  status_code (fst (embed_batch (inr data) s)) <> 400%Z.
Proof.
  intros Hd Hg Ht Hb Hl.
  rewrite (embed_batch_encodes _ _ _ _ _ _ Hd Hg Ht Hb Hl). cbv zeta.
  pose proof (load_model_encode_calls _ _ _ Hl) as Hc.
  destruct (encode m texts (Some batch_size)) as [e|a];
    [|destruct (batch_payload MODEL_NAME a)]; simpl;
    rewrite ?encode_calls_emit; simpl; rewrite ?app_nil_r, Hc;
    (split; [reflexivity | discriminate]).
Qed.

Lemma embed_batch_status_when_valid data texts s :
  truthy data = true ->
  dict_get data "texts" (JArr []) = inr texts ->
  negb (truthy texts) || negb (is_list texts) = false ->
  status_code (fst (embed_batch (inr data) s)) <> 400%Z.
Proof.
  intros Hd Hg Ht.
  destruct (dict_get_inr _ _ _ _ Hg) as (o & -> & _).
  destruct (load_model s) as [[e|m] s1] eqn:Hl.
  - rewrite (embed_batch_load_fails _ _ _ _ _ Hd Hg Ht Hl). discriminate.
  - eapply embed_batch_valid_run; eauto using dict_get_total.
Qed.

(** ** The claims about validation *)

(** C10.  On each of the three POST endpoints, a body that parses to a
    falsy value (the empty object, the empty array, [false], [0], [null],
    ...) is answered with status 400 and the body-level message
    "Request body must be JSON", whatever fields it may lack, and nothing
    else happens: the guard tests the truthiness of the parsed value. *)
Theorem falsy_body_rejected_as_not_json data s :
  truthy data = false ->
  embed (inr data) s = (Response (Error "Request body must be JSON") 400, s) /\
  embed_batch (inr data) s = (Response (Error "Request body must be JSON") 400, s) /\
  similarity (inr data) s = (Response (Error "Request body must be JSON") 400, s).
Proof.
  intros Hd. repeat split.
  - now apply embed_falsy.
  - now apply embed_batch_falsy.
  - now apply similarity_falsy.
Qed.

(** C2, as the code has it.  [embed] checks in a fixed order and stops at
    the first failing check: a body that [get_json] returned and that is
    falsy is answered 400 "Request body must be JSON"; otherwise, for an
    object whose ['text'] (defaulting to the empty string) is falsy, the
    answer is 400 "Field 'text' is required"; otherwise validation passes,
    the model is obtained and the text is encoded.  Status 400 is returned
    exactly when one of the two checks fails. *)
Theorem embed_validation_order get_json s :
  (forall data, get_json = inr data -> truthy data = false ->
     embed get_json s = (Response (Error "Request body must be JSON") 400, s)) /\
  (forall data text, get_json = inr data -> truthy data = true ->
     dict_get data "text" (JStr "") = inr text -> truthy text = false ->
     embed get_json s = (Response (Error "Field 'text' is required") 400, s)) /\
  (forall data text, get_json = inr data -> truthy data = true ->
     dict_get data "text" (JStr "") = inr text -> truthy text = true ->
     status_code (fst (embed get_json s)) <> 400%Z /\
     forall m s1, load_model s = (inr m, s1) ->
       encode_calls (snd (embed get_json s)) = encode_calls s ++ [Encode text None] /\
       forall embedding, encode m text None = inr embedding ->
         fst (embed get_json s) =
         Response (Embedding embedding (nd_len embedding) MODEL_NAME) 200) /\
  (status_code (fst (embed get_json s)) = 400%Z <->
   exists data, get_json = inr data /\
     (truthy data = false \/
      exists text, truthy data = true /\
        dict_get data "text" (JStr "") = inr text /\ truthy text = false)).
Proof.
  assert (Hpass : forall data text, truthy data = true ->
            dict_get data "text" (JStr "") = inr text -> truthy text = true ->
            status_code (fst (embed (inr data) s)) <> 400%Z).
  { intros data text Hd Hg Ht.
    destruct (load_model s) as [[e|m] s1] eqn:Hl.
    - rewrite (embed_load_fails _ _ _ _ _ Hd Hg Ht Hl). discriminate.
    - rewrite (embed_encodes _ _ _ _ _ Hd Hg Ht Hl).
      destruct (encode m text None); discriminate. }
  split; [|split; [|split]].
  - intros data -> Hd. now apply embed_falsy.
  - intros data text -> Hd Hg Ht. now apply embed_no_text with text.
  - intros data text -> Hd Hg Ht. split; [now apply Hpass with text|].
    intros m s1 Hl. rewrite (embed_encodes _ _ _ _ _ Hd Hg Ht Hl).
    pose proof (load_model_encode_calls _ _ _ Hl) as Hc.
    split.
    + destruct (encode m text None); simpl;
        rewrite ?encode_calls_emit; simpl; now rewrite ?app_nil_r, Hc.
    + now intros embedding ->.
  - split.
    + intros H400. destruct get_json as [e|data]; [discriminate|].
      exists data. split; [reflexivity|].
      destruct (truthy data) eqn:Hd; [right|now left].
      destruct (dict_get data "text" (JStr "")) as [e|text] eqn:Hg.
      { rewrite (embed_not_dict _ _ _ Hd Hg) in H400. discriminate. }
      exists text. repeat split.
      destruct (truthy text) eqn:Ht; [|reflexivity].
      now destruct (Hpass data text Hd Hg Ht).
    + intros (data & -> & [Hd | (text & Hd & Hg & Ht)]).
      * now rewrite (embed_falsy _ _ Hd).
      * now rewrite (embed_no_text _ _ _ Hd Hg Ht).
Qed.

(** C7, as the code has it.  For a body that is a non-empty JSON object,
    [embed_batch] answers 400 "Field 'texts' must be a non-empty array"
    exactly when ['texts'] is absent, is the empty array, or is not an
    array; otherwise validation passes: the model is obtained and [encode]
    is called on the texts. *)
Theorem embed_batch_texts_check (o : gmap string json) s :
  truthy (JObj o) = true ->
  (embed_batch (inr (JObj o)) s =
     (Response (Error "Field 'texts' must be a non-empty array") 400, s)
   <-> (o !! "texts" = None \/ o !! "texts" = Some (JArr []) \/
        exists v, o !! "texts" = Some v /\ is_list v = false)) /\
  (forall items, o !! "texts" = Some (JArr items) -> items <> [] ->
     status_code (fst (embed_batch (inr (JObj o)) s)) <> 400%Z /\
     forall m s1, load_model s = (inr m, s1) ->
       exists batch_size,
         encode_calls (snd (embed_batch (inr (JObj o)) s)) =
         encode_calls s ++ [Encode (JArr items) (Some batch_size)]).
Proof.
  intros Hd.
  assert (Hvalid : forall items, o !! "texts" = Some (JArr items) -> items <> [] ->
            dict_get (JObj o) "texts" (JArr []) = inr (JArr items) /\
            negb (truthy (JArr items)) || negb (is_list (JArr items)) = false).
  { intros items Hk Hne. split; [now apply dict_get_some|].
    destruct items; [congruence|reflexivity]. }
  split; [split|].
  - intros Heq.
    destruct (o !! "texts") as [v|] eqn:Hk; [|now left]. right.
    destruct v as [| | | | |items|]; try (right; eexists; split; [reflexivity|reflexivity]).
    destruct items as [|x items]; [now left|].
    exfalso. destruct (Hvalid (x :: items) eq_refl) as [Hg Ht]; [discriminate|].
    apply (embed_batch_status_when_valid _ _ s Hd Hg Ht).
    now rewrite Heq.
  - intros Hcase.
    assert (exists texts, dict_get (JObj o) "texts" (JArr []) = inr texts /\
              negb (truthy texts) || negb (is_list texts) = true)
      as (texts & Hg & Ht).
    { destruct Hcase as [Hk | [Hk | (v & Hk & Hv)]].
      - exists (JArr []). split; [now apply dict_get_none|reflexivity].
      - exists (JArr []). split; [now apply dict_get_some|reflexivity].
      - exists v. split; [now apply dict_get_some|].
        rewrite Hv. apply orb_true_r. }
    now apply embed_batch_bad_texts with texts.
  - intros items Hk Hne. destruct (Hvalid items Hk Hne) as [Hg Ht].
    split; [now apply embed_batch_status_when_valid with (JArr items)|].
    intros m s1 Hl. eexists.
    eapply embed_batch_valid_run; eauto using dict_get_total.
Qed.

(** No handler replaces or unsets a loaded model. *)
Lemma handlers_keep_model s m get_json :
  model s = Some m ->
  model (snd (health s)) = Some m /\
  model (snd (embed get_json s)) = Some m /\
  model (snd (embed_batch get_json s)) = Some m /\
  model (snd (similarity get_json s)) = Some m.
Proof.
  intros Hm. pose proof (load_model_warm s m Hm) as Hl.
  repeat split.
  - unfold App.health. now rewrite Hl.
  - unfold_handler. destruct get_json as [e|data]; [exact Hm|]. cbn.
    destruct (truthy data); cbn; [|exact Hm].
    destruct (dict_get data "text" (JStr "")) as [e|text]; cbn; [exact Hm|].
    destruct (truthy text); cbn; [|exact Hm]. rewrite Hl.
    destruct (encode m text None); exact Hm.
  - unfold_handler. destruct get_json as [e|data]; [exact Hm|]. cbn.
    destruct (truthy data); cbn; [|exact Hm].
    destruct (dict_get data "texts" (JArr [])) as [e|texts]; cbn; [exact Hm|].
    destruct (negb (truthy texts) || negb (is_list texts)); cbn; [exact Hm|].
    destruct (dict_get data "batch_size" (JInt 32)) as [e|b]; cbn; [exact Hm|].
    rewrite Hl. destruct (encode m texts (Some b)) as [e|a]; cbn; [exact Hm|].
    destruct (batch_payload MODEL_NAME a); exact Hm.
  - unfold_handler. destruct get_json as [e|data]; [exact Hm|]. cbn.
    destruct (truthy data); cbn; [|exact Hm].
    destruct (dict_get data "text1" (JStr "")) as [e|t1]; cbn; [exact Hm|].
    destruct (dict_get data "text2" (JStr "")) as [e|t2]; cbn; [exact Hm|].
    destruct (negb (truthy t1) || negb (truthy t2)); cbn; [exact Hm|].
    rewrite Hl. destruct (encode m (JArr [t1; t2]) None) as [e|a]; cbn; [exact Hm|].
    destruct (cosine_of_first_two a); exact Hm.
Qed.

(** ** The claim about loading once *)

(** Where [load_model] does load once.  Calls of [load_model] that do not
    overlap load the model once: the first call on an unloaded process runs the
    constructor, stores the handle and returns it; every later call returns
    that handle and changes nothing, and no handler unsets it.  The same
    holds for any number of threads and any schedule once the model is
    loaded (the entry point loads it before serving).  Threads that enter
    an unloaded process together are not serialised: each one may run the
    constructor, so up to one load per thread can occur; still every value
    a thread returns is a handle that the constructor returned in full. *)
Theorem load_model_once_unless_raced :
  (forall s m, model s = None ->
     SentenceTransformer_new MODEL_NAME (loads s) = inr m ->
     exists s', load_model s = (inr m, s') /\ model s' = Some m /\
                loads s' = S (loads s)) /\
  (forall s m, model s = Some m ->
     load_model s = (inr m, s) /\
     forall get_json,
       model (snd (health s)) = Some m /\
       model (snd (embed get_json s)) = Some m /\
       model (snd (embed_batch get_json s)) = Some m /\
       model (snd (similarity get_json s)) = Some m) /\
  (forall s m n schedule, model s = Some m ->
     fst (run schedule (s, replicate n AtTest)) = s /\
     forall tid r,
       snd (run schedule (s, replicate n AtTest)) !! tid = Some (Returned r) ->
       r = Some m) /\
  (forall n schedule,
     (loads (fst (run schedule (cold_start n))) <= n)%nat /\
     forall tid r,
       snd (run schedule (cold_start n)) !! tid = Some (Returned r) ->
       exists m, r = Some m /\ constructed m).
Proof.
  split; [|split; [|split]].
  - intros s m Hnone Hnew.
    destruct (load_model_cold_ok _ _ Hnone Hnew) as (s' & ? & ? & ? & _).
    eauto.
  - intros s m Hm. split; [now apply load_model_warm|].
    intros get_json. now apply handlers_keep_model.
  - intros s m n schedule Hm.
    destruct (run_warm s m schedule (replicate n AtTest) Hm) as (ps & -> & Hps).
    { apply Forall_replicate. now left. }
    split; [reflexivity|]. simpl. intros tid r Hr.
    destruct (Forall_lookup_1 _ _ _ _ Hps Hr) as [Hp | [Hp | Hp]]; congruence.
  - intros n schedule.
    destruct (run_invariant n schedule _ (cold_start_invariant n))
      as (Hcount & _ & Hpcs).
    split; [lia|].
    intros tid r Hr. exact (Forall_lookup_1 _ _ _ _ Hpcs Hr).
Qed.

(** ** The claims about batch encoding *)

(** Whatever the body, [embed_batch] calls [encode] at most once, and then
    on the ['texts'] and the ['batch_size'] it read from the body. *)
Lemma embed_batch_calls data s :
  encode_calls (snd (embed_batch (inr data) s)) = encode_calls s \/
  exists texts batch_size,
    dict_get data "texts" (JArr []) = inr texts /\
    dict_get data "batch_size" (JInt 32) = inr batch_size /\
    encode_calls (snd (embed_batch (inr data) s)) =
      encode_calls s ++ [Encode texts (Some batch_size)].
Proof.
  destruct (truthy data) eqn:Hd;
    [|left; now rewrite (embed_batch_falsy _ _ Hd)].
  destruct (dict_get data "texts" (JArr [])) as [e|texts] eqn:Hg.
  { left. rewrite (embed_batch_not_dict _ _ _ Hd Hg). simpl.
    rewrite encode_calls_emit. simpl. apply app_nil_r. }
  destruct (negb (truthy texts) || negb (is_list texts)) eqn:Ht;
    [left; now rewrite (embed_batch_bad_texts _ _ _ Hd Hg Ht)|].
  destruct (load_model s) as [[e|m] s1] eqn:Hl.
  - left. rewrite (embed_batch_load_fails _ _ _ _ _ Hd Hg Ht Hl). simpl.
    rewrite encode_calls_emit. simpl.
    now rewrite app_nil_r, (load_model_encode_calls _ _ _ Hl).
  - right. destruct (dict_get_inr _ _ _ _ Hg) as (o & -> & _).
    eexists _, _. split; [reflexivity|]. split; [apply dict_get_total|].
    eapply embed_batch_valid_run; eauto using dict_get_total.
Qed.

(** C8.  When the body omits ['batch_size'], every call of [encode] that
    [embed_batch] makes carries [batch_size=32], and such a call is made
    whenever the request passes validation and the model is available.  A
    ['batch_size'] that is present is handed to [encode] as it is, whatever
    its value: the handler enforces no upper bound. *)
Theorem batch_size_default_32_unbounded (o : gmap string json) s :
  (o !! "batch_size" = None ->
     (exists calls,
        encode_calls (snd (embed_batch (inr (JObj o)) s)) =
          encode_calls s ++ calls /\
        Forall (fun ev => exists texts, ev = Encode texts (Some (JInt 32)))
          calls) /\
     (forall items m s1,
        truthy (JObj o) = true ->
        o !! "texts" = Some (JArr items) -> items <> [] ->
        load_model s = (inr m, s1) ->
        encode_calls (snd (embed_batch (inr (JObj o)) s)) =
          encode_calls s ++ [Encode (JArr items) (Some (JInt 32))])) /\
  (forall v, o !! "batch_size" = Some v ->
     forall items m s1,
       truthy (JObj o) = true ->
       o !! "texts" = Some (JArr items) -> items <> [] ->
       load_model s = (inr m, s1) ->
       encode_calls (snd (embed_batch (inr (JObj o)) s)) =
         encode_calls s ++ [Encode (JArr items) (Some v)]).
Proof.
  assert (Hrun : forall batch_size items m s1,
            dict_get (JObj o) "batch_size" (JInt 32) = inr batch_size ->
            truthy (JObj o) = true ->
            o !! "texts" = Some (JArr items) -> items <> [] ->
            load_model s = (inr m, s1) ->
            encode_calls (snd (embed_batch (inr (JObj o)) s)) =
              encode_calls s ++ [Encode (JArr items) (Some batch_size)]).
  { intros batch_size items m s1 Hb Hd Hk Hne Hl.
    eapply embed_batch_valid_run; eauto using dict_get_some.
    destruct items; [congruence|reflexivity]. }
  split.
  - intros Hb. split.
    + destruct (embed_batch_calls (JObj o) s)
        as [Hsame | (texts & batch_size & _ & Hbs & Hcalls)].
      * exists []. rewrite app_nil_r. split; [exact Hsame|constructor].
      * rewrite (dict_get_none _ _ _ Hb) in Hbs. injection Hbs as <-.
        exists [Encode texts (Some (JInt 32))]. split; [exact Hcalls|].
        repeat constructor. now exists texts.
    + intros items m s1. apply Hrun. now apply dict_get_none.
  - intros v Hb items m s1. apply Hrun. now apply dict_get_some.
Qed.

(** C3.  For a request that passes validation with a non-empty ['texts']
    array, for which the model is available and [encode] returns a stack
    of vectors, the response is 200 and carries those vectors in the order
    [encode] returned them, their number as [count], the length of the
    first one as [dimension] (0 if there is none) and the model name.  When
    [encode] maps the texts to their vectors one by one, the i-th vector of
    the response is the vector of the i-th text and [count] is the number
    of texts. *)
Theorem embed_batch_response (o : gmap string json) items batch_size m s s1 rows :
  truthy (JObj o) = true ->
  o !! "texts" = Some (JArr items) -> items <> [] ->
  dict_get (JObj o) "batch_size" (JInt 32) = inr batch_size ->
  load_model s = (inr m, s1) ->
  encode m (JArr items) (Some batch_size) = inr (Mat rows) ->
  fst (embed_batch (inr (JObj o)) s) =
    Response (Embeddings rows (length rows)
                (match rows with r :: _ => length r | [] => 0%nat end)
                MODEL_NAME) 200 /\
  forall enc : json -> list F, rows = map enc items ->
    length rows = length items /\
    forall i text, items !! i = Some text -> rows !! i = Some (enc text).
Proof.
  intros Hd Hk Hne Hb Hl Henc.
  assert (Hg : dict_get (JObj o) "texts" (JArr []) = inr (JArr items))
    by now apply dict_get_some.
  assert (Ht : negb (truthy (JArr items)) || negb (is_list (JArr items)) = false)
    by (destruct items; [congruence|reflexivity]).
  split.
  - rewrite (embed_batch_encodes _ _ _ _ _ _ Hd Hg Ht Hb Hl). cbv zeta.
    now rewrite Henc.
  - intros enc ->. split; [apply length_map|].
    intros i text Hi. now rewrite list_lookup_fmap, Hi.
Qed.

(** ** The claims about similarity *)

Lemma products_comm :
  (forall x y : F, fmul x y = fmul y x) ->
  forall a b : list F, products a b = products b a.
Proof.
  intros Hmul a b. unfold products.
  revert b. induction a as [|x a IH]; intros [|y b]; simpl; try reflexivity.
  now rewrite (Hmul x y), IH.
Qed.

Lemma dot_sum_comm :
  (forall x y : F, fmul x y = fmul y x) ->
  forall a b : list F, dot_sum a b = dot_sum b a.
Proof. intros Hmul a b. unfold dot_sum. now rewrite (products_comm Hmul). Qed.

Lemma products_zip_with (a b : list F) : products a b = zip_with fmul a b.
Proof.
  unfold products. revert b.
  induction a as [|x a IH]; intros [|y b]; simpl; try reflexivity.
  now rewrite IH.
Qed.

Lemma cosine_score_comm :
  (forall x y : F, fmul x y = fmul y x) ->
  forall a b : list F,
    match cosine a b with inr q => Some q | inl _ => None end =
    match cosine b a with inr q => Some q | inl _ => None end.
Proof.
  intros Hmul a b. unfold cosine, np_dot.
  rewrite (Nat.eqb_sym (length b) (length a)).
  destruct (length a =? length b)%nat; [|reflexivity].
  now rewrite (dot_sum_comm Hmul a b), (Hmul (np_linalg_norm a)).
Qed.

Lemma cosine_rows a b :
  cosine_of_first_two (Mat [a; b]) = cosine a b.
Proof. reflexivity. Qed.

(** The cosine of two vectors of one size, written with the operations of
    the arithmetic alone. *)
Lemma cosine_same_size (a b : list F) :
  length a = length b ->
  cosine a b =
  inr (let d := fsum (zip_with fmul a b) in
       let p := fmul (fsqrt (fsum (zip_with fmul a a)))
                     (fsqrt (fsum (zip_with fmul b b))) in
       if fis_zero p then ZeroDivide d else Quot (fdiv d p)).
Proof.
  intros Hlen. unfold cosine, np_dot, np_divide, np_linalg_norm, dot_sum.
  now rewrite Hlen, Nat.eqb_refl, !products_zip_with.
Qed.

(** C4.  For a request with truthy ['text1'] and ['text2'], for which the
    model is available, [similarity] calls [encode] exactly once, on the
    two-element list [[text1, text2]].  For the two vectors [v1], [v2] that
    call returned, it reports the cosine: the sum of the products
    [v1[i] * v2[i]], divided by the product of the two norms, each norm the
    square root of the sum of the squares; the sums are those of the
    library behind [np.dot], the division is the scalar division of the
    arrays' element type, which flags a zero divisor instead of raising. *)
Theorem similarity_one_encode_cosine
    (o : gmap string json) text1 text2 m s s1 v1 v2 :
  truthy (JObj o) = true ->
  o !! "text1" = Some text1 -> o !! "text2" = Some text2 ->
  truthy text1 = true -> truthy text2 = true ->
  load_model s = (inr m, s1) ->
  encode m (JArr [text1; text2]) None = inr (Mat [v1; v2]) ->
  length v1 = length v2 ->
  let dot := fsum (zip_with fmul v1 v2) in
  let norm1 := fsqrt (fsum (zip_with fmul v1 v1)) in
  let norm2 := fsqrt (fsum (zip_with fmul v2 v2)) in
  fst (similarity (inr (JObj o)) s) =
    Response (Similarity
                (if fis_zero (fmul norm1 norm2) then ZeroDivide dot
                 else Quot (fdiv dot (fmul norm1 norm2)))
                text1 text2 MODEL_NAME) 200 /\
  encode_calls (snd (similarity (inr (JObj o)) s)) =
    encode_calls s ++ [Encode (JArr [text1; text2]) None].
Proof.
  intros Hd Hk1 Hk2 Ht1 Ht2 Hl Henc Hlen. cbv zeta.
  rewrite (similarity_encodes _ _ _ _ _ _ Hd
             (dict_get_some _ _ _ _ Hk1) (dict_get_some _ _ _ _ Hk2) Ht1 Ht2 Hl).
  cbv zeta. rewrite Henc, cosine_rows, (cosine_same_size _ _ Hlen).
  cbv zeta. split; [reflexivity|].
  cbn [snd]. rewrite encode_calls_emit. cbn [is_encode].
  now rewrite (load_model_encode_calls _ _ _ Hl).
Qed.

(** The score [similarity] reports, for any body, once the model is
    available and [encode] returns the vectors of the two texts. *)
Lemma similarity_score (enc : json -> list F) (o : gmap string json) m s s1 :
  let text1 := match o !! "text1" with Some v => v | None => JStr "" end in
  let text2 := match o !! "text2" with Some v => v | None => JStr "" end in
  encode m (JArr [text1; text2]) None = inr (Mat [enc text1; enc text2]) ->
  load_model s = (inr m, s1) ->
  score_of (fst (similarity (inr (JObj o)) s)) =
  if truthy (JObj o) && truthy text1 && truthy text2
  then match cosine (enc text1) (enc text2) with
       | inr q => Some q
       | inl _ => None
       end
  else None.
Proof.
  intros text1 text2 Henc Hl.
  destruct (truthy (JObj o)) eqn:Hd; simpl;
    [|now rewrite (similarity_falsy _ _ Hd)].
  pose proof (dict_get_total o "text1" (JStr "")) as H1.
  pose proof (dict_get_total o "text2" (JStr "")) as H2.
  fold text1 in H1. fold text2 in H2.
  destruct (truthy text1) eqn:Ht1; simpl.
  - destruct (truthy text2) eqn:Ht2.
    + rewrite (similarity_encodes _ _ _ _ _ _ Hd H1 H2 Ht1 Ht2 Hl).
      cbv zeta. rewrite Henc, cosine_rows.
      now destruct (cosine (enc text1) (enc text2)).
    + rewrite (similarity_bad_texts _ _ _ _ Hd H1 H2); [reflexivity|].
      rewrite Ht1, Ht2. reflexivity.
  - rewrite (similarity_bad_texts _ _ _ _ Hd H1 H2); [reflexivity|].
    now rewrite Ht1.
Qed.

(** C5.  Under a fixed embedding function, the score for [(a, b)] equals
    the score for [(b, a)]: exactly, whenever the scalar product is
    commutative (as it is in IEEE arithmetic and over the reals). *)
Theorem similarity_symmetric (enc : json -> list F) m s s1 s' s1' a b :
  (forall x y : F, fmul x y = fmul y x) ->
  encode m (JArr [a; b]) None = inr (Mat [enc a; enc b]) ->
  encode m (JArr [b; a]) None = inr (Mat [enc b; enc a]) ->
  load_model s = (inr m, s1) ->
  load_model s' = (inr m, s1') ->
  score_of (fst (similarity (inr (similarity_body a b)) s)) =
  score_of (fst (similarity (inr (similarity_body b a)) s')).
Proof.
  intros Hmul Hab Hba Hl Hl'. unfold similarity_body.
  assert (Hne : forall x y : json,
            truthy (JObj (<["text1" := x]> {["text2" := y]})) = true).
  { intros x y. apply truthy_dict_nonempty, insert_non_empty. }
  rewrite (similarity_score enc _ m s s1), (similarity_score enc _ m s' s1');
    rewrite ?lookup_insert_eq, ?lookup_insert_ne, ?lookup_singleton_eq by done;
    try assumption.
  rewrite !Hne. simpl.
  rewrite (andb_comm (truthy b)).
  destruct (truthy a && truthy b); [|reflexivity].
  apply cosine_score_comm, Hmul.
Qed.

End Properties.

(** ** binary32 *)

Lemma float32_mul_comm (x y : spec_float) : fmul x y = fmul y x.
Proof.
  destruct x as [sx|sx| |sx mx ex], y as [sy|sy| |sy my ey]; simpl;
    rewrite ?(xorb_comm sx sy), ?(Pos.mul_comm mx my), ?(Z.add_comm ex ey);
    reflexivity.
Qed.

(** The scalar operations of binary32 arrays. *)
Abbreviation mul32 := (SFmul Float32.prec Float32.emax).
Abbreviation div32 := (SFdiv Float32.prec Float32.emax).
Abbreviation sqrt32 := (SFsqrt Float32.prec Float32.emax).
Abbreviation zero32 := (fun x : spec_float => Float32.is_zero x = true).

Lemma mul32_zero_finite x y :
  Float32.is_zero x = true -> Float32.is_finite y = true ->
  Float32.is_zero (mul32 x y) = true.
Proof. now destruct x, y. Qed.

Lemma mul32_finite_zero x y :
  Float32.is_finite x = true -> Float32.is_zero y = true ->
  Float32.is_zero (mul32 x y) = true.
Proof. now destruct x, y. Qed.

Lemma sqrt32_zero x :
  Float32.is_zero x = true -> Float32.is_zero (sqrt32 x) = true.
Proof. now destruct x. Qed.

Lemma squares_zero (v : list spec_float) :
  Forall zero32 v -> Forall zero32 (zip_with mul32 v v).
Proof.
  induction 1 as [|x v Hx _ IH]; constructor; [|exact IH].
  now destruct x.
Qed.

(** Adding up zeros gives a zero, in the accumulator of [sdot] as in any
    summation. *)
Lemma accumulate_double_zeros (l : list spec_float) :
  Forall (fun x => Float32.is_zero x = true) l ->
  Float32.is_zero (Float32.accumulate_double l) = true.
Proof.
  unfold Float32.accumulate_double.
  generalize (S754_zero false) (eq_refl : Float32.is_zero (S754_zero false) = true).
  intros acc Hacc H. revert acc Hacc.
  induction H as [|x l Hx _ IH]; intros acc Hacc; cbn [fold_left].
  - now destruct acc.
  - apply IH.
    destruct acc as [[]| | |], x as [[]| | |]; try discriminate; reflexivity.
Qed.

Section Binary32Claim.

Variable reduce : list spec_float -> spec_float.
Variable MODEL_NAME : string.
Variable SentenceTransformer_new :
  string -> nat -> exn + SentenceTransformer spec_float.

(** C6, as the code has it.  The arrays are binary32 and [reduce] is the
    summation of the library behind [np.dot], whatever its order.  For a
    request with truthy ['text1'] and ['text2'] whose vectors [encode]
    returned, the score is the binary32 quotient of the dot product by the
    product of the two norms as [np.divide] gives it: nothing clamps it
    and nothing tests the divisor.  A division by zero is flagged exactly
    when the binary32 product of the two norms is zero.  It is whenever
    either vector is exactly zero and the norm of the other one is
    finite. *)
Theorem similarity_unclamped_unguarded
    (o : gmap string json) text1 text2 m s s1 v1 v2 :
  truthy (JObj o) = true ->
  o !! "text1" = Some text1 -> o !! "text2" = Some text2 ->
  truthy text1 = true -> truthy text2 = true ->
  load_model MODEL_NAME SentenceTransformer_new s = (inr m, s1) ->
  encode m (JArr [text1; text2]) None = inr (Mat [v1; v2]) ->
  length v1 = length v2 ->
  let dot := reduce (zip_with mul32 v1 v2) in
  let norm1 := sqrt32 (reduce (zip_with mul32 v1 v1)) in
  let norm2 := sqrt32 (reduce (zip_with mul32 v2 v2)) in
  let score :=
    score_of (fst (similarity (H := Float32.arith reduce)
                     MODEL_NAME SentenceTransformer_new (inr (JObj o)) s)) in
  (score = Some (ZeroDivide dot) <->
   Float32.is_zero (mul32 norm1 norm2) = true) /\
  (Float32.is_zero (mul32 norm1 norm2) = false ->
   score = Some (Quot (div32 dot (mul32 norm1 norm2)))) /\
  ((forall l, Forall zero32 l -> Float32.is_zero (reduce l) = true) ->
   Forall zero32 v1 /\ Float32.is_finite norm2 = true \/
   Forall zero32 v2 /\ Float32.is_finite norm1 = true ->
   score = Some (ZeroDivide dot)).
Proof.
  intros Hd Hk1 Hk2 Ht1 Ht2 Hl Henc Hlen. cbv zeta.
  rewrite (similarity_encodes (H := Float32.arith reduce) _ _ _ _ _ _ _ _ Hd
             (dict_get_some _ _ _ _ Hk1) (dict_get_some _ _ _ _ Hk2) Ht1 Ht2 Hl).
  cbv zeta. rewrite Henc, cosine_rows, (cosine_same_size _ _ Hlen).
  cbv zeta. cbn [fst score_of body fmul fsum fdiv fsqrt fis_zero Float32.arith].
  set (dot := reduce (zip_with mul32 v1 v2)).
  set (p := mul32 (sqrt32 (reduce (zip_with mul32 v1 v1)))
                  (sqrt32 (reduce (zip_with mul32 v2 v2)))).
  split; [|split].
  - destruct (Float32.is_zero p); split; congruence.
  - now intros ->.
  - intros Hred Hzero.
    assert (Hp : Float32.is_zero p = true); [|now rewrite Hp].
    destruct Hzero as [[Hz Hfin] | [Hz Hfin]].
    + apply mul32_zero_finite; [|exact Hfin].
      apply sqrt32_zero, Hred, squares_zero, Hz.
    + apply mul32_finite_zero; [exact Hfin|].
      apply sqrt32_zero, Hred, squares_zero, Hz.
Qed.

End Binary32Claim.

(** ** The claims as stated, on concrete requests *)

(** C1 fails in the code.  [load_model] is documented to load only once
    and tests [model is None] to that end, but the test and the store are
    not one step.  Two request threads enter [load_model] on an unloaded
    process; each tests [model is None] before the other stores.  Both run
    the constructor: the model is loaded twice. *)
Lemma racing_first_calls_load_twice :
  let c := run Toy.name Toy.always32 [0; 1; 0; 0; 0; 0; 0; 1; 1; 1; 1; 1]%nat
             (cold_start 2) in
  snd c = [Returned (Some (Toy.toy_model Float32.of_Z));
           Returned (Some (Toy.toy_model Float32.of_Z))] /\
  loads (fst c) = 2%nat /\
  ~ (loads (fst c) <= 1)%nat.
Proof.
  cbv zeta.
  assert (Hl : loads (fst (run Toy.name Toy.always32
                             [0; 1; 0; 0; 0; 0; 0; 1; 1; 1; 1; 1]%nat
                             (cold_start 2))) = 2%nat) by reflexivity.
  split; [reflexivity|]. split; [exact Hl|]. rewrite Hl. lia.
Qed.

(** C2 as stated fails.  The body [{}] parses, so the first check of the
    claim passes, and it has no ['text']: the claim asks for the field-level
    message.  The handler answers with the body-level message. *)
Lemma embed_empty_object_not_field_error :
  (∅ : gmap string json) !! "text" = None /\
  fst (embed Toy.name Toy.always32 (inr (JObj ∅)) cold) =
    Response (Error "Request body must be JSON") 400 /\
  fst (embed Toy.name Toy.always32 (inr (JObj ∅)) cold) <>
    Response (Error "Field 'text' is required") 400.
Proof.
  split; [reflexivity|]. split; [reflexivity|].
  change (fst (embed Toy.name Toy.always32 (inr (JObj ∅)) cold))
    with (Response (F := spec_float) (Error "Request body must be JSON") 400).
  discriminate.
Qed.

(** C7 as stated fails.  The body [{}] parses and has no ['texts'], yet the
    answer is not the ['texts'] message. *)
Lemma embed_batch_empty_object_not_texts_error :
  (∅ : gmap string json) !! "texts" = None /\
  fst (embed_batch Toy.name Toy.always32 (inr (JObj ∅)) cold) =
    Response (Error "Request body must be JSON") 400 /\
  fst (embed_batch Toy.name Toy.always32 (inr (JObj ∅)) cold) <>
    Response (Error "Field 'texts' must be a non-empty array") 400.
Proof.
  split; [reflexivity|]. split; [reflexivity|].
  change (fst (embed_batch Toy.name Toy.always32 (inr (JObj ∅)) cold))
    with (Response (F := spec_float) (Error "Request body must be JSON") 400).
  discriminate.
Qed.

(** C6 as stated fails in the arithmetic of the arrays, in each of its
    three parts.
    - The range: both texts are embedded as the binary32 vector (1, 1),
      whose norm is not zero; the reported quotient is 1 + 2^-23, which is
      greater than 1.
    - No division by zero away from the zero vector: the vector (2^-80) is
      not zero, but its square underflows, so its norm is computed as zero
      and the division by zero is flagged.
    - Division by zero at the zero vector: against (2^100), whose square
      overflows, the product of the norms is 0 * inf, a nan; the quotient
      is a nan and no division by zero is flagged. *)
Lemma float32_similarity_exceeds_one :
  let v := Toy.enc Float32.of_Z "ab" in
  let q := S754_finite false 8388609 (-23) in
  let body := similarity_body (JStr "a") (JStr "b") in
  let tiny := [[Float32.pow2 (-80)]; [Float32.of_Z 1]] in
  let huge := [[Float32.of_Z 0]; [Float32.pow2 100]] in
  (v = [Float32.of_Z 1; Float32.of_Z 1] /\
   fis_zero (np_linalg_norm v) = false /\
   fst (similarity Toy.name Toy.always32
          (inr (similarity_body (JStr "ab") (JStr "ab"))) cold) =
     Response (Similarity (Quot q) (JStr "ab") (JStr "ab") Toy.name) 200 /\
   SFltb (Float32.of_Z 1) q = true) /\
  (Float32.is_zero (Float32.pow2 (-80)) = false /\
   score_of (fst (similarity Toy.name (Toy.fixed tiny) (inr body) cold)) =
     Some (ZeroDivide (Float32.pow2 (-80)))) /\
  (Float32.is_zero (Float32.of_Z 0) = true /\
   np_linalg_norm [Float32.pow2 100] = S754_infinity false /\
   score_of (fst (similarity Toy.name (Toy.fixed huge) (inr body) cold)) =
     Some (Quot S754_nan)).
Proof. cbv zeta. repeat split; vm_compute; reflexivity. Qed.

(** ** The handlers at work *)

Example listed_bodies_are_falsy :
  Forall (fun v => truthy v = false)
    [JObj ∅; JArr []; JBool false; JInt 0; JNull].
Proof. repeat constructor. Qed.

Example embed_hello :
  fst (embed Toy.name Toy.always32 (inr (embed_body (JStr "hello"))) cold) =
  Response (Embedding (Vec [Float32.of_Z 4; Float32.of_Z 0]) 2 Toy.name) 200.
Proof. reflexivity. Qed.

(** A truthy body that is not an object has no [get]: the handler's
    [except] turns the [AttributeError] into a 500. *)
Example embed_list_body :
  embed Toy.name Toy.always32 (inr (JArr [JInt 1])) cold =
  (Response (Error "'list' object has no attribute 'get'") 500,
   State None
     [LogError "Embedding error: 'list' object has no attribute 'get'"]).
Proof. reflexivity. Qed.

(** The first request finds the weights unavailable; the second loads. *)
Example health_after_failed_load :
  let first := health Toy.name Toy.flaky32 cold in
  let second := health Toy.name Toy.flaky32 (snd first) in
  fst first = Response (Unhealthy "unhealthy" "cannot fetch model weights") 500 /\
  model (snd first) = None /\
  fst second = Response (Health "healthy" Toy.name 2) 200 /\
  loads (snd second) = 2%nat.
Proof. cbv zeta. repeat split; reflexivity. Qed.

(** A text whose vector is zero: the divisor is zero and the response is
    still a 200. *)
Example similarity_zero_vector :
  fst (similarity Toy.name Toy.always32
         (inr (similarity_body (JStr "x") (JStr "abcd"))) cold) =
  Response (Similarity (ZeroDivide (S754_zero false)) (JStr "x") (JStr "abcd")
              Toy.name) 200.
Proof. vm_compute. reflexivity. Qed.

Example embed_batch_huge_batch_size :
  let texts := JArr [JStr "ab"; JStr "abc"] in
  encode_calls
    (snd (embed_batch Toy.name Toy.always32
            (inr (batch_body_sized texts (JInt 1000000000000))) cold)) =
  [Encode texts (Some (JInt 1000000000000))].
Proof. reflexivity. Qed.

(** ** The theorems at concrete requests *)

Lemma falsy_body_rejected_as_not_json_witness :
  truthy (JObj ∅) = false /\
  embed Toy.name Toy.always32 (inr (JObj ∅)) cold =
    (Response (Error "Request body must be JSON") 400, cold) /\
  embed_batch Toy.name Toy.always32 (inr (JObj ∅)) cold =
    (Response (Error "Request body must be JSON") 400, cold) /\
  similarity Toy.name Toy.always32 (inr (JObj ∅)) cold =
    (Response (Error "Request body must be JSON") 400, cold).
Proof.
  split; [reflexivity|].
  apply (falsy_body_rejected_as_not_json Toy.name Toy.always32). reflexivity.
Defined.

Lemma embed_validation_order_witness :
  status_code (fst (embed Toy.name Toy.always32
                      (inr (embed_body (JStr ""))) cold)) = 400%Z.
Proof.
  apply (proj2 (proj2 (proj2 (proj2
           (embed_validation_order Toy.name Toy.always32
              (inr (embed_body (JStr ""))) cold))))).
  exists (embed_body (JStr "")). split; [reflexivity|]. right.
  exists (JStr ""). repeat split.
Defined.

Lemma embed_batch_texts_check_witness :
  truthy (batch_body (JArr [])) = true /\
  embed_batch Toy.name Toy.always32 (inr (batch_body (JArr []))) cold =
    (Response (Error "Field 'texts' must be a non-empty array") 400, cold).
Proof.
  split; [reflexivity|].
  destruct (embed_batch_texts_check Toy.name Toy.always32
              {[ "texts" := JArr [] ]} cold) as [[_ Hback] _];
    [reflexivity|].
  apply Hback. right. left. reflexivity.
Defined.

Lemma batch_size_default_32_unbounded_witness :
  let texts := [JStr "ab"; JStr "abc"] in
  let o : gmap string json := {[ "texts" := JArr texts ]} in
  o !! "batch_size" = None /\
  encode_calls (snd (embed_batch Toy.name Toy.always32 (inr (JObj o)) cold)) =
    encode_calls (F := spec_float) cold ++
    [Encode (JArr texts) (Some (JInt 32))].
Proof.
  cbv zeta. split; [reflexivity|].
  destruct (batch_size_default_32_unbounded Toy.name Toy.always32
              {[ "texts" := JArr [JStr "ab"; JStr "abc"] ]} cold)
    as [Hdefault _].
  destruct Hdefault as [_ Hvalid]; [reflexivity|].
  apply (Hvalid [JStr "ab"; JStr "abc"] (Toy.toy_model Float32.of_Z)
           (snd (load_model Toy.name Toy.always32 cold)));
    [reflexivity | reflexivity | discriminate | reflexivity].
Defined.

Lemma embed_batch_response_witness :
  let texts := [JStr "ab"; JStr "abc"] in
  let o : gmap string json := {[ "texts" := JArr texts ]} in
  let rows := [Toy.enc Float32.of_Z "ab"; Toy.enc Float32.of_Z "abc"] in
  fst (embed_batch Toy.name Toy.always32 (inr (JObj o)) cold) =
    Response (Embeddings rows 2 2 Toy.name) 200.
Proof.
  cbv zeta.
  destruct (embed_batch_response Toy.name Toy.always32
              {[ "texts" := JArr [JStr "ab"; JStr "abc"] ]}
              [JStr "ab"; JStr "abc"] (JInt 32)
              (Toy.toy_model Float32.of_Z) cold
              (snd (load_model Toy.name Toy.always32 cold))
              [Toy.enc Float32.of_Z "ab"; Toy.enc Float32.of_Z "abc"])
    as [Hresp _];
    [reflexivity | reflexivity | discriminate | reflexivity | reflexivity
    | reflexivity |].
  exact Hresp.
Defined.

Lemma similarity_one_encode_cosine_witness :
  let a := JStr "ab" in
  let b := JStr "abcd" in
  fst (similarity Toy.name Toy.always32 (inr (similarity_body a b)) cold) =
    Response (Similarity (Quot (S754_finite false 15005998 (-24))) a b Toy.name)
      200 /\
  encode_calls (snd (similarity Toy.name Toy.always32
                       (inr (similarity_body a b)) cold)) =
    [Encode (JArr [a; b]) None].
Proof.
  cbv zeta.
  destruct (similarity_one_encode_cosine Toy.name Toy.always32
              (<[ "text1" := JStr "ab" ]> {[ "text2" := JStr "abcd" ]})
              (JStr "ab") (JStr "abcd")
              (Toy.toy_model Float32.of_Z) cold
              (snd (load_model Toy.name Toy.always32 cold))
              (Toy.enc Float32.of_Z "ab") (Toy.enc Float32.of_Z "abcd"))
    as [Hscore Hcalls];
    [reflexivity | reflexivity | reflexivity | reflexivity | reflexivity
    | reflexivity | reflexivity | reflexivity |].
  split; [|exact Hcalls].
  etransitivity; [exact Hscore|]. vm_compute. reflexivity.
Defined.

Lemma similarity_symmetric_witness :
  score_of (fst (similarity Toy.name Toy.always32
                   (inr (similarity_body (JStr "ab") (JStr "abcd"))) cold)) =
  score_of (fst (similarity Toy.name Toy.always32
                   (inr (similarity_body (JStr "abcd") (JStr "ab"))) cold)).
Proof.
  apply (similarity_symmetric Toy.name Toy.always32
           (fun j => match j with
                     | JStr t => Toy.enc Float32.of_Z t
                     | _ => []
                     end)
           (Toy.toy_model Float32.of_Z) cold
           (snd (load_model Toy.name Toy.always32 cold)) cold
           (snd (load_model Toy.name Toy.always32 cold))).
  - exact float32_mul_comm.
  - reflexivity.
  - reflexivity.
  - reflexivity.
  - reflexivity.
Defined.

Lemma similarity_unclamped_unguarded_witness :
  let ask a b :=
    score_of (fst (similarity Toy.name Toy.always32
                     (inr (similarity_body (JStr a) (JStr b))) cold)) in
  let tiny := [[Float32.pow2 (-80)]; [Float32.of_Z 1]] in
  ask "abc" "abcd" = Some (Quot (S754_finite false 15916264 (-24))) /\
  (Forall zero32 (Toy.enc Float32.of_Z "x") /\
   ask "x" "abcd" = Some (ZeroDivide (S754_zero false))) /\
  score_of (fst (similarity Toy.name (Toy.fixed tiny)
                   (inr (similarity_body (JStr "a") (JStr "b"))) cold)) =
    Some (ZeroDivide (Float32.pow2 (-80))).
Proof.
  cbv zeta. split; [|split; [split|]].
  - destruct (similarity_unclamped_unguarded
                Float32.accumulate_double Toy.name Toy.always32
                (<["text1" := JStr "abc"]> {["text2" := JStr "abcd"]})
                (JStr "abc") (JStr "abcd") (Toy.toy_model Float32.of_Z) cold
                (snd (load_model Toy.name Toy.always32 cold))
                (Toy.enc Float32.of_Z "abc") (Toy.enc Float32.of_Z "abcd"))
      as (_ & Hquot & _);
      [reflexivity | reflexivity | reflexivity | reflexivity | reflexivity
      | reflexivity | reflexivity | reflexivity |].
    etransitivity; [apply Hquot; vm_compute; reflexivity|].
    vm_compute. reflexivity.
  - repeat constructor.
  - destruct (similarity_unclamped_unguarded
                Float32.accumulate_double Toy.name Toy.always32
                (<["text1" := JStr "x"]> {["text2" := JStr "abcd"]})
                (JStr "x") (JStr "abcd") (Toy.toy_model Float32.of_Z) cold
                (snd (load_model Toy.name Toy.always32 cold))
                (Toy.enc Float32.of_Z "x") (Toy.enc Float32.of_Z "abcd"))
      as (_ & _ & Hzero);
      [reflexivity | reflexivity | reflexivity | reflexivity | reflexivity
      | reflexivity | reflexivity | reflexivity |].
    etransitivity; [apply Hzero|].
    + exact accumulate_double_zeros.
    + left. split; [repeat constructor | vm_compute; reflexivity].
    + vm_compute. reflexivity.
  - destruct (similarity_unclamped_unguarded
                Float32.accumulate_double Toy.name
                (Toy.fixed [[Float32.pow2 (-80)]; [Float32.of_Z 1]])
                (<["text1" := JStr "a"]> {["text2" := JStr "b"]})
                (JStr "a") (JStr "b")
                (Toy.fixed_model [[Float32.pow2 (-80)]; [Float32.of_Z 1]]) cold
                (snd (load_model Toy.name
                        (Toy.fixed [[Float32.pow2 (-80)]; [Float32.of_Z 1]])
                        cold))
                [Float32.pow2 (-80)] [Float32.of_Z 1])
      as (Hiff & _ & _);
      [reflexivity | reflexivity | reflexivity | reflexivity | reflexivity
      | reflexivity | reflexivity | reflexivity |].
    etransitivity; [apply Hiff; vm_compute; reflexivity|].
    vm_compute. reflexivity.
Defined.

Lemma failed_load_retains_nothing_witness :
  model (F := spec_float) cold = None /\
  Toy.flaky32 Toy.name (loads (F := spec_float) cold) = inl Toy.offline /\
  exists s',
    load_model Toy.name Toy.flaky32 cold = (inl Toy.offline, s') /\
    model s' = model (F := spec_float) cold /\
    loads s' = S (loads (F := spec_float) cold) /\
    forall r s'', load_model Toy.name Toy.flaky32 s' = (r, s'') ->
      r = Toy.flaky32 Toy.name (loads s') /\ loads s'' = S (loads s').
Proof.
  split; [reflexivity|]. split; [reflexivity|].
  apply (failed_load_retains_nothing Toy.name Toy.flaky32 cold Toy.offline);
    reflexivity.
Defined.

Lemma load_model_once_unless_raced_witness :
  (loads (fst (run Toy.name Toy.always32 [0; 1; 0; 0; 1; 1]%nat
                 (cold_start 2))) <= 2)%nat.
Proof.
  apply (proj2 (proj2 (proj2
           (load_model_once_unless_raced Toy.name Toy.always32)))).
Defined.

(** * The rest of the service *)

Section Handlers.

Context {F : Type} `{Arith F}.
Variable MODEL_NAME : string.
Variable SentenceTransformer_new : string -> nat -> exn + SentenceTransformer F.

Abbreviation load_model := (load_model MODEL_NAME SentenceTransformer_new).
Abbreviation health := (health MODEL_NAME SentenceTransformer_new).
Abbreviation embed := (embed MODEL_NAME SentenceTransformer_new).
Abbreviation embed_batch := (embed_batch MODEL_NAME SentenceTransformer_new).
Abbreviation similarity := (similarity MODEL_NAME SentenceTransformer_new).
Abbreviation dispatch := (dispatch MODEL_NAME SentenceTransformer_new).
Abbreviation serve := (serve MODEL_NAME SentenceTransformer_new).
Abbreviation serving := (serving MODEL_NAME SentenceTransformer_new).
Abbreviation step := (step MODEL_NAME SentenceTransformer_new).
Abbreviation step_thread := (step_thread MODEL_NAME SentenceTransformer_new).
Abbreviation run := (run MODEL_NAME SentenceTransformer_new).

Ltac unfold_handler :=
  unfold App.embed, App.embed_batch, App.similarity,
    guarded, bind, lift, bad_request, ret, call_encode, tell, ok; cbn.

(** ** More paths of [similarity] *)

Lemma similarity_get_json_raises e s :
  similarity (inl e) s =
  (Response (Error (exn_str e)) 500,
   emit (LogError ("Similarity error: " +:+ exn_str e)) s).
Proof. reflexivity. Qed.

Lemma embed_batch_get_json_raises e s :
  embed_batch (inl e) s =
  (Response (Error (exn_str e)) 500,
   emit (LogError ("Batch embedding error: " +:+ exn_str e)) s).
Proof. reflexivity. Qed.

Lemma similarity_not_dict data e s :
  truthy data = true ->
  dict_get data "text1" (JStr "") = inl e ->
  similarity (inr data) s =
  (Response (Error (exn_str e)) 500,
   emit (LogError ("Similarity error: " +:+ exn_str e)) s).
Proof. intros Hd Hg. unfold_handler. now rewrite Hd, Hg. Qed.

Lemma similarity_load_fails data text1 text2 e s s1 :
  truthy data = true ->
  dict_get data "text1" (JStr "") = inr text1 ->
  dict_get data "text2" (JStr "") = inr text2 ->
  negb (truthy text1) || negb (truthy text2) = false ->
  load_model s = (inl e, s1) ->
  similarity (inr data) s =
  (Response (Error (exn_str e)) 500,
   emit (LogError ("Similarity error: " +:+ exn_str e)) s1).
Proof.
  intros Hd H1 H2 Ht Hl. unfold_handler. rewrite Hd, H1, H2, Ht. cbn.
  now rewrite Hl.
Qed.

(** A value that is not a dict has no [get], whatever the key. *)
Lemma dict_get_not_dict data key default :
  (forall o, data <> JObj o) ->
  dict_get data key default = inl (AttributeError data "get").
Proof. intros Hno. destruct data; try reflexivity. now destruct (Hno members). Qed.

Lemma load_model_loads s r s' :
  load_model s = (r, s') -> (loads s <= loads s' <= S (loads s))%nat.
Proof.
  destruct (model s) as [m|] eqn:Hm.
  - rewrite (load_model_warm _ _ _ _ Hm). intros [= _ <-]. lia.
  - destruct (SentenceTransformer_new MODEL_NAME (loads s)) as [e|m] eqn:Hnew.
    + destruct (load_model_cold_fail _ _ _ _ Hm Hnew) as (s1 & -> & _ & Hn & _).
      intros [= _ <-]. lia.
    + destruct (load_model_cold_ok _ _ _ _ Hm Hnew) as (s1 & -> & _ & Hn & _).
      intros [= _ <-]. lia.
Qed.

(** ** Every POST request ends in one of three ways *)

Abbreviation reached := (reached MODEL_NAME SentenceTransformer_new).
Abbreviation outcome := (outcome MODEL_NAME SentenceTransformer_new).

Lemma reached_start s : reached s s.
Proof. now left. Qed.

Lemma reached_loaded s r s1 : load_model s = (r, s1) -> reached s s1.
Proof. intros Hl. right. left. now rewrite Hl. Qed.

Lemma reached_encoded s m s1 x b :
  load_model s = (inr m, s1) -> reached s (emit (Encode x b) s1).
Proof. intros Hl. right. right. exists m, x, b. now rewrite Hl. Qed.

Lemma answered prefix s m s1 p x b :
  load_model s = (inr m, s1) -> (forall msg, p <> Error msg) ->
  outcome prefix s (Response p 200) (emit (Encode x b) s1).
Proof.
  intros Hl Hp. replace s1 with (snd (load_model s)) by now rewrite Hl.
  apply Answered with m; [now rewrite Hl | exact Hp].
Qed.

Lemma embed_outcome get_json s :
  outcome "Embedding error: " s (fst (embed get_json s)) (snd (embed get_json s)).
Proof.
  destruct get_json as [e|data].
  { rewrite embed_get_json_raises. apply Failed, reached_start. }
  destruct (truthy data) eqn:Hd;
    [|rewrite (embed_falsy _ _ _ _ Hd); apply Rejected].
  destruct (dict_get data "text" (JStr "")) as [e|text] eqn:Hg.
  { rewrite (embed_not_dict _ _ _ _ _ Hd Hg). apply Failed, reached_start. }
  destruct (truthy text) eqn:Ht;
    [|rewrite (embed_no_text _ _ _ _ _ Hd Hg Ht); apply Rejected].
  destruct (load_model s) as [[e|m] s1] eqn:Hl.
  - rewrite (embed_load_fails _ _ _ _ _ _ _ Hd Hg Ht Hl).
    eapply Failed, reached_loaded, Hl.
  - rewrite (embed_encodes _ _ _ _ _ _ _ Hd Hg Ht Hl).
    destruct (encode m text None) as [e|a]; simpl.
    + eapply Failed, reached_encoded, Hl.
    + eapply answered; [exact Hl | discriminate].
Qed.

Lemma embed_batch_outcome get_json s :
  outcome "Batch embedding error: " s
    (fst (embed_batch get_json s)) (snd (embed_batch get_json s)).
Proof.
  destruct get_json as [e|data].
  { rewrite embed_batch_get_json_raises. apply Failed, reached_start. }
  destruct (truthy data) eqn:Hd;
    [|rewrite (embed_batch_falsy _ _ _ _ Hd); apply Rejected].
  destruct (dict_get data "texts" (JArr [])) as [e|texts] eqn:Hg.
  { rewrite (embed_batch_not_dict _ _ _ _ _ Hd Hg). apply Failed, reached_start. }
  destruct (negb (truthy texts) || negb (is_list texts)) eqn:Ht;
    [rewrite (embed_batch_bad_texts _ _ _ _ _ Hd Hg Ht); apply Rejected|].
  destruct (load_model s) as [[e|m] s1] eqn:Hl.
  - rewrite (embed_batch_load_fails _ _ _ _ _ _ _ Hd Hg Ht Hl).
    eapply Failed, reached_loaded, Hl.
  - destruct (dict_get_inr _ _ _ _ Hg) as (o & -> & _).
    rewrite (embed_batch_encodes _ _ _ _ _ _ _ _ Hd Hg Ht
               (dict_get_total o "batch_size" (JInt 32)) Hl).
    cbv zeta.
    destruct (encode m texts _) as [e|a]; simpl;
      [eapply Failed, reached_encoded, Hl|].
    destruct (batch_payload MODEL_NAME a) as [e|p] eqn:Hp; simpl;
      [eapply Failed, reached_encoded, Hl|].
    eapply answered; [exact Hl|].
    intros msg ->. unfold batch_payload in Hp.
    destruct a as [[|x v]|rows]; discriminate.
Qed.

Lemma similarity_outcome get_json s :
  outcome "Similarity error: " s
    (fst (similarity get_json s)) (snd (similarity get_json s)).
Proof.
  destruct get_json as [e|data].
  { rewrite similarity_get_json_raises. apply Failed, reached_start. }
  destruct (truthy data) eqn:Hd;
    [|rewrite (similarity_falsy _ _ _ _ Hd); apply Rejected].
  destruct (dict_get data "text1" (JStr "")) as [e|text1] eqn:H1.
  { rewrite (similarity_not_dict _ _ _ Hd H1). apply Failed, reached_start. }
  destruct (dict_get_inr _ _ _ _ H1) as (o & -> & _).
  pose proof (dict_get_total o "text2" (JStr "")) as H2.
  set (text2 := match o !! "text2" with Some v => v | None => JStr "" end) in H2.
  destruct (negb (truthy text1) || negb (truthy text2)) eqn:Ht;
    [rewrite (similarity_bad_texts _ _ _ _ _ _ Hd H1 H2 Ht); apply Rejected|].
  destruct (load_model s) as [[e|m] s1] eqn:Hl.
  - rewrite (similarity_load_fails _ _ _ _ _ _ Hd H1 H2 Ht Hl).
    eapply Failed, reached_loaded, Hl.
  - apply orb_false_elim in Ht as [Ht1 Ht2].
    apply negb_false_iff in Ht1, Ht2.
    rewrite (similarity_encodes _ _ _ _ _ _ _ _ Hd H1 H2 Ht1 Ht2 Hl).
    cbv zeta.
    destruct (encode m (JArr [text1; text2]) None) as [e|a]; simpl;
      [eapply Failed, reached_encoded, Hl|].
    destruct (cosine_of_first_two a) as [e|score]; simpl;
      [eapply Failed, reached_encoded, Hl|].
    eapply answered; [exact Hl | discriminate].
Qed.

(** What a handler has done by the time it fails or answers. *)
Lemma reached_calls s s1 :
  reached s s1 ->
  exists calls, encode_calls s1 = encode_calls s ++ calls /\
                (length calls <= 1)%nat.
Proof.
  unfold App.reached.
  intros [-> | [-> | (m & x & b & Hm & ->)]].
  - exists []. rewrite app_nil_r. split; [reflexivity|simpl; lia].
  - exists []. rewrite app_nil_r. split; [|simpl; lia].
    destruct (load_model s) as [r s1] eqn:Hl.
    exact (load_model_encode_calls _ _ _ _ _ Hl).
  - exists [Encode x b]. split; [|simpl; lia].
    destruct (load_model s) as [r s1] eqn:Hl. cbn [snd].
    rewrite encode_calls_emit. cbn [is_encode].
    now rewrite (load_model_encode_calls _ _ _ _ _ Hl).
Qed.

Lemma reached_loads s s1 :
  reached s s1 -> (loads s <= loads s1 <= S (loads s))%nat.
Proof.
  unfold App.reached. destruct (load_model s) as [r s2] eqn:Hl. cbn [fst snd].
  pose proof (load_model_loads _ _ _ Hl) as Hn.
  intros [-> | [-> | (m & x & b & Hm & ->)]];
    rewrite ?loads_emit; cbn [is_construct]; lia.
Qed.

Lemma reached_warm s s1 m :
  model s = Some m -> reached s s1 -> model s1 = Some m /\ loads s1 = loads s.
Proof.
  intros Hm. unfold App.reached. rewrite (load_model_warm _ _ _ _ Hm).
  cbn [fst snd].
  intros [-> | [-> | (m' & x & b & _ & ->)]];
    rewrite ?loads_emit; cbn [is_construct emit model]; auto with arith.
Qed.

Lemma outcome_calls prefix s r s' :
  outcome prefix s r s' ->
  exists calls, encode_calls s' = encode_calls s ++ calls /\
    (length calls <= 1)%nat /\
    (status_code r = 200%Z -> length calls = 1%nat) /\
    (status_code r = 400%Z -> calls = []).
Proof.
  intros [msg | e s1 Hr | p m x b Hm Hp].
  - exists []. rewrite app_nil_r. repeat split; simpl; try lia; discriminate.
  - destruct (reached_calls _ _ Hr) as (calls & Hc & Hlen).
    exists calls. rewrite encode_calls_emit. simpl. rewrite app_nil_r.
    repeat split; try assumption; discriminate.
  - exists [Encode x b].
    destruct (load_model s) as [r0 s1] eqn:Hl. cbn [snd].
    rewrite encode_calls_emit. cbn [is_encode].
    rewrite (load_model_encode_calls _ _ _ _ _ Hl).
    repeat split; simpl; try lia; discriminate.
Qed.

Lemma outcome_loads prefix s r s' :
  outcome prefix s r s' -> (loads s <= loads s' <= S (loads s))%nat.
Proof.
  intros [msg | e s1 Hr | p m x b Hm Hp].
  - lia.
  - rewrite loads_emit. cbn [is_construct].
    pose proof (reached_loads _ _ Hr). lia.
  - destruct (load_model s) as [r0 s1] eqn:Hl. cbn [snd].
    rewrite loads_emit. cbn [is_construct].
    pose proof (load_model_loads _ _ _ Hl). lia.
Qed.

Lemma outcome_warm prefix s r s' m :
  model s = Some m -> outcome prefix s r s' ->
  model s' = Some m /\ loads s' = loads s.
Proof.
  intros Hm [msg | e s1 Hr | p m' x b Hm' Hp].
  - auto.
  - rewrite loads_emit. cbn [is_construct emit model]. rewrite Nat.add_0_r.
    exact (reached_warm _ _ _ Hm Hr).
  - rewrite (load_model_warm _ _ _ _ Hm). cbn [snd].
    rewrite loads_emit. cbn [is_construct emit model]. auto with arith.
Qed.

(** ** What the POST handlers never do *)

(** X1.  A POST request that is answered 400 has changed nothing: the
    model was not loaded, [encode] was not called, nothing was logged. *)
Theorem bad_request_changes_nothing get_json s :
  (status_code (fst (embed get_json s)) = 400%Z ->
   snd (embed get_json s) = s) /\
  (status_code (fst (embed_batch get_json s)) = 400%Z ->
   snd (embed_batch get_json s) = s) /\
  (status_code (fst (similarity get_json s)) = 400%Z ->
   snd (similarity get_json s) = s).
Proof.
  assert (Hgen : forall prefix r s', outcome prefix s r s' ->
                   status_code r = 400%Z -> s' = s).
  { intros prefix r s' [msg | e s1 Hr | p m x b Hm Hp]; simpl;
      [reflexivity | discriminate | discriminate]. }
  repeat split; eapply Hgen.
  - apply embed_outcome.
  - apply embed_batch_outcome.
  - apply similarity_outcome.
Qed.

Abbreviation raised_in_embed :=
  (raised_in_embed MODEL_NAME SentenceTransformer_new).
Abbreviation raised_in_embed_batch :=
  (raised_in_embed_batch MODEL_NAME SentenceTransformer_new).
Abbreviation raised_in_similarity :=
  (raised_in_similarity MODEL_NAME SentenceTransformer_new).

Lemma load_model_fst_snd s r :
  fst (load_model s) = r -> load_model s = (r, snd (load_model s)).
Proof. intros <-. now destruct (load_model s). Qed.

Lemma embed_raised get_json s e :
  raised_in_embed get_json s e ->
  fst (embed get_json s) = Response (Error (exn_str e)) 500 /\
  last (trace (snd (embed get_json s))) =
    Some (LogError ("Embedding error: " +:+ exn_str e)).
Proof.
  intros [-> | (data & -> & Hd & [Hg | (text & Hg & Ht & [Hl | (m & Hl & He)])])].
  - rewrite embed_get_json_raises. split; [reflexivity | apply last_snoc].
  - rewrite (embed_not_dict _ _ _ _ _ Hd Hg).
    split; [reflexivity | apply last_snoc].
  - rewrite (embed_load_fails _ _ _ _ _ _ _ Hd Hg Ht (load_model_fst_snd _ _ Hl)).
    split; [reflexivity | apply last_snoc].
  - rewrite (embed_encodes _ _ _ _ _ _ _ Hd Hg Ht (load_model_fst_snd _ _ Hl)), He.
    split; [reflexivity | apply last_snoc].
Qed.

Lemma embed_500_raised get_json s :
  status_code (fst (embed get_json s)) = 500%Z ->
  exists e, raised_in_embed get_json s e.
Proof.
  destruct get_json as [e|data]; [exists e; now left|].
  destruct (truthy data) eqn:Hd;
    [|now rewrite (embed_falsy _ _ _ _ Hd)].
  destruct (dict_get data "text" (JStr "")) as [e|text] eqn:Hg.
  { intros _. exists e. right. exists data. auto. }
  destruct (truthy text) eqn:Ht;
    [|now rewrite (embed_no_text _ _ _ _ _ Hd Hg Ht)].
  destruct (load_model s) as [[e|m] s1] eqn:Hl.
  - intros _. exists e. right. exists data. repeat split; trivial.
    right. exists text. repeat split; trivial. left. now rewrite Hl.
  - rewrite (embed_encodes _ _ _ _ _ _ _ Hd Hg Ht Hl).
    destruct (encode m text None) as [e|a] eqn:He; [|discriminate].
    intros _. exists e. right. exists data. repeat split; trivial.
    right. exists text. repeat split; trivial. right. exists m.
    rewrite Hl. auto.
Qed.

Lemma embed_batch_raised get_json s e :
  raised_in_embed_batch get_json s e ->
  fst (embed_batch get_json s) = Response (Error (exn_str e)) 500 /\
  last (trace (snd (embed_batch get_json s))) =
    Some (LogError ("Batch embedding error: " +:+ exn_str e)).
Proof.
  intros [-> | (data & -> & Hd &
                [Hg | (texts & b & Hg & Ht & Hb &
                       [Hl | (m & Hl & [He | (a & He & Hp)])])])].
  - rewrite embed_batch_get_json_raises.
    split; [reflexivity | apply last_snoc].
  - rewrite (embed_batch_not_dict _ _ _ _ _ Hd Hg).
    split; [reflexivity | apply last_snoc].
  - rewrite (embed_batch_load_fails _ _ _ _ _ _ _ Hd Hg Ht
               (load_model_fst_snd _ _ Hl)).
    split; [reflexivity | apply last_snoc].
  - rewrite (embed_batch_encodes _ _ _ _ _ _ _ _ Hd Hg Ht Hb
               (load_model_fst_snd _ _ Hl)).
    cbv zeta. rewrite He. split; [reflexivity | apply last_snoc].
  - rewrite (embed_batch_encodes _ _ _ _ _ _ _ _ Hd Hg Ht Hb
               (load_model_fst_snd _ _ Hl)).
    cbv zeta. rewrite He, Hp. split; [reflexivity | apply last_snoc].
Qed.

Lemma embed_batch_500_raised get_json s :
  status_code (fst (embed_batch get_json s)) = 500%Z ->
  exists e, raised_in_embed_batch get_json s e.
Proof.
  destruct get_json as [e|data]; [exists e; now left|].
  destruct (truthy data) eqn:Hd;
    [|now rewrite (embed_batch_falsy _ _ _ _ Hd)].
  destruct (dict_get data "texts" (JArr [])) as [e|texts] eqn:Hg.
  { intros _. exists e. right. exists data. auto. }
  destruct (negb (truthy texts) || negb (is_list texts)) eqn:Ht;
    [now rewrite (embed_batch_bad_texts _ _ _ _ _ Hd Hg Ht)|].
  destruct (dict_get_inr _ _ _ _ Hg) as (o & -> & _).
  pose proof (dict_get_total o "batch_size" (JInt 32)) as Hb.
  set (b := match o !! "batch_size" with Some v => v | None => JInt 32 end) in Hb.
  assert (Hsite : forall e,
            (fst (load_model s) = inl e \/
             exists m, fst (load_model s) = inr m /\
               (encode m texts (Some b) = inl e \/
                exists a, encode m texts (Some b) = inr a /\
                          batch_payload MODEL_NAME a = inl e)) ->
            exists e, raised_in_embed_batch (inr (JObj o)) s e).
  { intros e Hsite. exists e. right. exists (JObj o). repeat split; trivial.
    right. exists texts, b. auto. }
  destruct (load_model s) as [[e|m] s1] eqn:Hl.
  - intros _. apply (Hsite e). now left.
  - rewrite (embed_batch_encodes _ _ _ _ _ _ _ _ Hd Hg Ht Hb Hl). cbv zeta.
    destruct (encode m texts (Some b)) as [e|a] eqn:He.
    + intros _. apply (Hsite e). right. exists m. auto.
    + destruct (batch_payload MODEL_NAME a) as [e|p] eqn:Hp; [|discriminate].
      intros _. apply (Hsite e). right. exists m. split; [reflexivity|].
      right. exists a. auto.
Qed.

Lemma similarity_raised get_json s e :
  raised_in_similarity get_json s e ->
  fst (similarity get_json s) = Response (Error (exn_str e)) 500 /\
  last (trace (snd (similarity get_json s))) =
    Some (LogError ("Similarity error: " +:+ exn_str e)).
Proof.
  intros [-> | (data & -> & Hd &
                [Hg | (t1 & t2 & H1 & H2 & Ht1 & Ht2 &
                       [Hl | (m & Hl & [He | (a & He & Hc)])])])].
  - rewrite similarity_get_json_raises.
    split; [reflexivity | apply last_snoc].
  - rewrite (similarity_not_dict _ _ _ Hd Hg).
    split; [reflexivity | apply last_snoc].
  - assert (Ht : negb (truthy t1) || negb (truthy t2) = false)
      by now rewrite Ht1, Ht2.
    rewrite (similarity_load_fails _ _ _ _ _ _ Hd H1 H2 Ht
               (load_model_fst_snd _ _ Hl)).
    split; [reflexivity | apply last_snoc].
  - rewrite (similarity_encodes _ _ _ _ _ _ _ _ Hd H1 H2 Ht1 Ht2
               (load_model_fst_snd _ _ Hl)).
    cbv zeta. rewrite He. split; [reflexivity | apply last_snoc].
  - rewrite (similarity_encodes _ _ _ _ _ _ _ _ Hd H1 H2 Ht1 Ht2
               (load_model_fst_snd _ _ Hl)).
    cbv zeta. rewrite He, Hc. split; [reflexivity | apply last_snoc].
Qed.

Lemma similarity_500_raised get_json s :
  status_code (fst (similarity get_json s)) = 500%Z ->
  exists e, raised_in_similarity get_json s e.
Proof.
  destruct get_json as [e|data]; [exists e; now left|].
  destruct (truthy data) eqn:Hd;
    [|now rewrite (similarity_falsy _ _ _ _ Hd)].
  destruct (dict_get data "text1" (JStr "")) as [e|t1] eqn:H1.
  { intros _. exists e. right. exists data. auto. }
  destruct (dict_get_inr _ _ _ _ H1) as (o & -> & _).
  pose proof (dict_get_total o "text2" (JStr "")) as H2.
  set (t2 := match o !! "text2" with Some v => v | None => JStr "" end) in H2.
  destruct (negb (truthy t1) || negb (truthy t2)) eqn:Ht;
    [now rewrite (similarity_bad_texts _ _ _ _ _ _ Hd H1 H2 Ht)|].
  apply orb_false_elim in Ht as [Ht1 Ht2].
  apply negb_false_iff in Ht1, Ht2.
  assert (Hsite : forall e,
            (fst (load_model s) = inl e \/
             exists m, fst (load_model s) = inr m /\
               (encode m (JArr [t1; t2]) None = inl e \/
                exists a, encode m (JArr [t1; t2]) None = inr a /\
                          cosine_of_first_two a = inl e)) ->
            exists e, raised_in_similarity (inr (JObj o)) s e).
  { intros e Hsite. exists e. right. exists (JObj o). repeat split; trivial.
    right. exists t1, t2. auto 10. }
  destruct (load_model s) as [[e|m] s1] eqn:Hl.
  - intros _. apply (Hsite e). now left.
  - rewrite (similarity_encodes _ _ _ _ _ _ _ _ Hd H1 H2 Ht1 Ht2 Hl). cbv zeta.
    destruct (encode m (JArr [t1; t2]) None) as [e|a] eqn:He.
    + intros _. apply (Hsite e). right. exists m. auto.
    + destruct (cosine_of_first_two a) as [e|q] eqn:Hc; [|discriminate].
      intros _. apply (Hsite e). right. exists m. split; [reflexivity|].
      right. exists a. auto.
Qed.

(** X2.  A POST request is answered 500 exactly when an exception is
    raised inside the handler's [try]: by [request.get_json()], by [.get]
    on a body that is not an object, by [load_model], by [encode], or by
    the computation on the arrays [encode] returned.  The response then
    carries the message of that very exception, and the last line logged
    is that message behind the handler's prefix. *)
Theorem internal_error_is_logged get_json s :
  ((forall e, raised_in_embed get_json s e ->
      fst (embed get_json s) = Response (Error (exn_str e)) 500 /\
      last (trace (snd (embed get_json s))) =
        Some (LogError ("Embedding error: " +:+ exn_str e))) /\
   (status_code (fst (embed get_json s)) = 500%Z ->
    exists e, raised_in_embed get_json s e)) /\
  ((forall e, raised_in_embed_batch get_json s e ->
      fst (embed_batch get_json s) = Response (Error (exn_str e)) 500 /\
      last (trace (snd (embed_batch get_json s))) =
        Some (LogError ("Batch embedding error: " +:+ exn_str e))) /\
   (status_code (fst (embed_batch get_json s)) = 500%Z ->
    exists e, raised_in_embed_batch get_json s e)) /\
  ((forall e, raised_in_similarity get_json s e ->
      fst (similarity get_json s) = Response (Error (exn_str e)) 500 /\
      last (trace (snd (similarity get_json s))) =
        Some (LogError ("Similarity error: " +:+ exn_str e))) /\
   (status_code (fst (similarity get_json s)) = 500%Z ->
    exists e, raised_in_similarity get_json s e)).
Proof.
  split; [|split]; split.
  - apply embed_raised.
  - apply embed_500_raised.
  - apply embed_batch_raised.
  - apply embed_batch_500_raised.
  - apply similarity_raised.
  - apply similarity_500_raised.
Qed.

(** X3.  Every POST request is answered 200, 400 or 500, and calls
    [encode] at most once: exactly once when the answer is 200, not at all
    when it is 400. *)
Theorem one_encode_per_request get_json s :
  let ends (r : response F) (s' : state F) :=
    (status_code r = 200%Z \/ status_code r = 400%Z \/ status_code r = 500%Z) /\
    exists calls, encode_calls s' = encode_calls s ++ calls /\
      (length calls <= 1)%nat /\
      (status_code r = 200%Z -> length calls = 1%nat) /\
      (status_code r = 400%Z -> calls = []) in
  ends (fst (embed get_json s)) (snd (embed get_json s)) /\
  ends (fst (embed_batch get_json s)) (snd (embed_batch get_json s)) /\
  ends (fst (similarity get_json s)) (snd (similarity get_json s)).
Proof.
  assert (Hgen : forall prefix r s', outcome prefix s r s' ->
            (status_code r = 200%Z \/ status_code r = 400%Z \/
             status_code r = 500%Z) /\
            exists calls, encode_calls s' = encode_calls s ++ calls /\
              (length calls <= 1)%nat /\
              (status_code r = 200%Z -> length calls = 1%nat) /\
              (status_code r = 400%Z -> calls = [])).
  { intros prefix r s' Ho. split; [|now apply outcome_calls with prefix].
    destruct Ho; simpl; auto. }
  cbv zeta. repeat split; try (eapply Hgen; fail).
  all: first [ eapply (proj1 (Hgen _ _ _ (embed_outcome get_json s)))
             | eapply (proj2 (Hgen _ _ _ (embed_outcome get_json s)))
             | eapply (proj1 (Hgen _ _ _ (embed_batch_outcome get_json s)))
             | eapply (proj2 (Hgen _ _ _ (embed_batch_outcome get_json s)))
             | eapply (proj1 (Hgen _ _ _ (similarity_outcome get_json s)))
             | eapply (proj2 (Hgen _ _ _ (similarity_outcome get_json s))) ].
Qed.

(** ** [health] *)

(** X4.  [health] never calls [encode].  If the model is loaded, or the
    constructor succeeds now, the answer is 200 with the model name and the
    dimension of the handle that is in the global afterwards.  If the model
    is not loaded and the constructor raises, the answer is 500
    "unhealthy" with the exception's message, which is the last line
    logged, and the model is still unset. *)
Theorem health_reports s :
  encode_calls (snd (health s)) = encode_calls s /\
  (forall m,
     model s = Some m \/
     (model s = None /\ SentenceTransformer_new MODEL_NAME (loads s) = inr m) ->
     fst (health s) =
       Response (Health "healthy" MODEL_NAME (get_sentence_embedding_dimension m))
         200 /\
     model (snd (health s)) = Some m) /\
  (forall e,
     model s = None ->
     SentenceTransformer_new MODEL_NAME (loads s) = inl e ->
     fst (health s) = Response (Unhealthy "unhealthy" (exn_str e)) 500 /\
     model (snd (health s)) = None /\
     last (trace (snd (health s))) =
       Some (LogError ("Health check failed: " +:+ exn_str e))).
Proof.
  split; [|split].
  - unfold App.health. destruct (load_model s) as [[e|m] s1] eqn:Hl;
      cbn [snd]; rewrite ?encode_calls_emit; cbn [is_encode];
      rewrite ?app_nil_r; exact (load_model_encode_calls _ _ _ _ _ Hl).
  - intros m Hm. unfold App.health.
    assert (exists s1, load_model s = (inr m, s1) /\ model s1 = Some m)
      as (s1 & -> & Hs1).
    { destruct Hm as [Hm | [Hm Hnew]].
      - exists s. split; [now apply load_model_warm | exact Hm].
      - destruct (load_model_cold_ok _ _ _ _ Hm Hnew) as (s1 & ? & ? & _).
        eauto. }
    split; [reflexivity | exact Hs1].
  - intros e Hm Hnew. unfold App.health.
    destruct (load_model_cold_fail _ _ _ _ Hm Hnew) as (s1 & -> & Hs1 & _).
    split; [reflexivity|]. split; [exact Hs1|]. apply last_snoc.
Qed.

(** ** Validation in [similarity] *)

Lemma similarity_status_when_valid data text1 text2 s :
  truthy data = true ->
  dict_get data "text1" (JStr "") = inr text1 ->
  dict_get data "text2" (JStr "") = inr text2 ->
  truthy text1 = true -> truthy text2 = true ->
  status_code (fst (similarity (inr data) s)) <> 400%Z.
Proof.
  intros Hd H1 H2 Ht1 Ht2.
  destruct (load_model s) as [[e|m] s1] eqn:Hl.
  - assert (Ht : negb (truthy text1) || negb (truthy text2) = false)
      by now rewrite Ht1, Ht2.
    rewrite (similarity_load_fails _ _ _ _ _ _ Hd H1 H2 Ht Hl). discriminate.
  - rewrite (similarity_encodes _ _ _ _ _ _ _ _ Hd H1 H2 Ht1 Ht2 Hl). cbv zeta.
    destruct (encode m (JArr [text1; text2]) None) as [e|a]; [discriminate|].
    destruct (cosine_of_first_two a); discriminate.
Qed.

(** X5.  For a body that is a non-empty JSON object, [similarity] answers
    400 "Fields 'text1' and 'text2' are required" exactly when ['text1'] or
    ['text2'] is absent or falsy; nothing else happens then. *)
Theorem similarity_fields_check (o : gmap string json) s :
  truthy (JObj o) = true ->
  (similarity (inr (JObj o)) s =
     (Response (Error "Fields 'text1' and 'text2' are required") 400, s)
   <-> (o !! "text1" = None \/ o !! "text2" = None \/
        exists v, (o !! "text1" = Some v \/ o !! "text2" = Some v) /\
                  truthy v = false)).
Proof.
  intros Hd.
  pose proof (dict_get_total o "text1" (JStr "")) as H1.
  pose proof (dict_get_total o "text2" (JStr "")) as H2.
  split.
  - intros Heq.
    destruct (o !! "text1") as [v1|] eqn:Hk1; [|now left].
    destruct (o !! "text2") as [v2|] eqn:Hk2; [|now right; left].
    right. right.
    destruct (truthy v1) eqn:Ht1; [|exists v1; auto].
    destruct (truthy v2) eqn:Ht2; [|exists v2; auto].
    exfalso.
    apply (similarity_status_when_valid _ _ _ s Hd H1 H2 Ht1 Ht2).
    now rewrite Heq.
  - intros Hcase.
    apply (similarity_bad_texts _ _ _ _ _ _ Hd H1 H2).
    destruct Hcase as [Hk | [Hk | (v & [Hk | Hk] & Hv)]]; rewrite Hk;
      rewrite ?Hv; try reflexivity; apply orb_true_r.
Qed.

(** ** Bodies that are not objects *)

(** X6.  A truthy body that is not a JSON object (a non-empty array or
    string, a nonzero number, [true]) is answered 500 by every POST handler,
    with Python's message for the missing [get]; the error is logged and
    neither the model nor [encode] is touched. *)
Theorem non_object_body_is_internal_error data s :
  truthy data = true ->
  (forall o, data <> JObj o) ->
  let msg := "'" +:+ type_name data +:+ "' object has no attribute 'get'" in
  embed (inr data) s =
    (Response (Error msg) 500, emit (LogError ("Embedding error: " +:+ msg)) s) /\
  embed_batch (inr data) s =
    (Response (Error msg) 500,
     emit (LogError ("Batch embedding error: " +:+ msg)) s) /\
  similarity (inr data) s =
    (Response (Error msg) 500, emit (LogError ("Similarity error: " +:+ msg)) s).
Proof.
  intros Hd Hno. cbv zeta. repeat split.
  - exact (embed_not_dict _ _ _ _ _ Hd (dict_get_not_dict _ _ _ Hno)).
  - exact (embed_batch_not_dict _ _ _ _ _ Hd (dict_get_not_dict _ _ _ Hno)).
  - exact (similarity_not_dict _ _ _ Hd (dict_get_not_dict _ _ _ Hno)).
Qed.

(** ** Requests one after another *)

Lemma dispatch_loads r s :
  (loads s <= loads (snd (dispatch r s)) <= S (loads s))%nat.
Proof.
  destruct r as [|g|g|g|e]; cbn [App.dispatch].
  - unfold App.health. destruct (load_model s) as [[e|m] s1] eqn:Hl;
      cbn [snd]; rewrite ?loads_emit; cbn [is_construct];
      pose proof (load_model_loads _ _ _ Hl); lia.
  - exact (outcome_loads _ _ _ _ (embed_outcome g s)).
  - exact (outcome_loads _ _ _ _ (embed_batch_outcome g s)).
  - exact (outcome_loads _ _ _ _ (similarity_outcome g s)).
  - cbn [snd]. lia.
Qed.

Lemma dispatch_warm r s m :
  model s = Some m ->
  model (snd (dispatch r s)) = Some m /\ loads (snd (dispatch r s)) = loads s.
Proof.
  intros Hm. destruct r as [|g|g|g|e]; cbn [App.dispatch].
  - unfold App.health. rewrite (load_model_warm _ _ _ _ Hm). auto.
  - exact (outcome_warm _ _ _ _ _ Hm (embed_outcome g s)).
  - exact (outcome_warm _ _ _ _ _ Hm (embed_batch_outcome g s)).
  - exact (outcome_warm _ _ _ _ _ Hm (similarity_outcome g s)).
  - auto.
Qed.

Lemma serve_cons r rest s :
  serve (r :: rest) s =
  (fst (dispatch r s) :: fst (serve rest (snd (dispatch r s))),
   snd (serve rest (snd (dispatch r s)))).
Proof.
  cbn [App.serve]. destruct (dispatch r s) as [resp s1]. cbn [fst snd].
  now destruct (serve rest s1).
Qed.

Lemma serve_warm requests s m :
  model s = Some m ->
  model (snd (serve requests s)) = Some m /\
  loads (snd (serve requests s)) = loads s /\
  length (fst (serve requests s)) = length requests.
Proof.
  revert s. induction requests as [|r rest IH]; intros s Hm.
  - auto.
  - rewrite serve_cons. cbn [fst snd length].
    destruct (dispatch_warm r s m Hm) as [Hm1 Hn1].
    destruct (IH _ Hm1) as (Hm2 & Hn2 & Hlen).
    repeat split; congruence.
Qed.

(** X7.  Once the model is loaded, no sequence of requests, to whatever
    routes and with whatever bodies, runs the constructor again or changes
    the handle; every request gets one response. *)
Theorem serve_keeps_loaded_model requests s m :
  model s = Some m ->
  model (snd (serve requests s)) = Some m /\
  loads (snd (serve requests s)) = loads s /\
  length (fst (serve requests s)) = length requests.
Proof.
  revert s. induction requests as [|r rest IH]; intros s Hm.
  - repeat split; assumption.
  - rewrite serve_cons. cbn [fst snd length].
    destruct (dispatch_warm r s m Hm) as [Hm1 Hn1].
    destruct (IH _ Hm1) as (Hm2 & Hn2 & Hlen).
    split; [exact Hm2|]. split; [congruence|]. now rewrite Hlen.
Qed.

(** X8.  A request runs the constructor at most once: [n] requests handled
    one after another add at most [n] constructor calls, and never remove
    one. *)
Theorem serve_one_attempt_per_request requests s :
  (loads s <= loads (snd (serve requests s)) <= loads s + length requests)%nat.
Proof.
  revert s. induction requests as [|r rest IH]; intros s.
  - simpl. lia.
  - rewrite serve_cons. cbn [snd length].
    pose proof (dispatch_loads r s). specialize (IH (snd (dispatch r s))). lia.
Qed.

(** On an unloaded process whose constructor succeeds, a request either
    leaves the process unloaded, without a constructor call, or loads it
    with one call. *)
Lemma reached_cold s s1 :
  model s = None ->
  (exists m, SentenceTransformer_new MODEL_NAME (loads s) = inr m) ->
  reached s s1 ->
  (model s1 = None /\ loads s1 = loads s) \/
  (model s1 <> None /\ loads s1 = S (loads s)).
Proof.
  intros Hm [m Hnew]. unfold App.reached.
  destruct (load_model_cold_ok _ _ _ _ Hm Hnew) as (s2 & -> & Hm2 & Hn2 & _).
  cbn [fst snd].
  intros [-> | [-> | (m' & x & b & _ & ->)]].
  - now left.
  - right. split; congruence.
  - right. rewrite loads_emit. cbn [is_construct emit model].
    split; [congruence | lia].
Qed.

Lemma dispatch_cold r s :
  model s = None ->
  (exists m, SentenceTransformer_new MODEL_NAME (loads s) = inr m) ->
  (model (snd (dispatch r s)) = None /\ loads (snd (dispatch r s)) = loads s) \/
  (model (snd (dispatch r s)) <> None /\
   loads (snd (dispatch r s)) = S (loads s)).
Proof.
  intros Hm Hnew.
  assert (Hgen : forall prefix resp s', outcome prefix s resp s' ->
            (model s' = None /\ loads s' = loads s) \/
            (model s' <> None /\ loads s' = S (loads s))).
  { intros prefix resp s' [msg | e s1 Hr | p m x b Hfst Hp].
    - now left.
    - rewrite loads_emit. cbn [is_construct emit model]. rewrite Nat.add_0_r.
      exact (reached_cold _ _ Hm Hnew Hr).
    - destruct Hnew as [m' Hnew].
      destruct (load_model_cold_ok _ _ _ _ Hm Hnew) as (s2 & -> & Hm2 & Hn2 & _).
      right. cbn [snd]. rewrite loads_emit. cbn [is_construct emit model].
      split; [congruence | lia]. }
  destruct r as [|g|g|g|e]; cbn [App.dispatch].
  - unfold App.health. destruct Hnew as [m' Hnew].
    destruct (load_model_cold_ok _ _ _ _ Hm Hnew) as (s2 & -> & Hm2 & Hn2 & _).
    right. cbn [snd]. split; congruence.
  - exact (Hgen _ _ _ (embed_outcome g s)).
  - exact (Hgen _ _ _ (embed_batch_outcome g s)).
  - exact (Hgen _ _ _ (similarity_outcome g s)).
  - now left.
Qed.

(** X9.  If the constructor does not fail, requests handled one after
    another on an unloaded process load the model at most once, however
    many there are. *)
Theorem serve_loads_at_most_once requests s :
  (forall attempt, exists m, SentenceTransformer_new MODEL_NAME attempt = inr m) ->
  model s = None ->
  (loads (snd (serve requests s)) <= S (loads s))%nat.
Proof.
  intros Hnew. revert s. induction requests as [|r rest IH]; intros s Hm.
  - simpl. lia.
  - rewrite serve_cons. cbn [snd].
    destruct (dispatch_cold r s Hm (Hnew _)) as [[Hm1 Hn1] | [Hm1 Hn1]].
    + specialize (IH _ Hm1). lia.
    + destruct (model (snd (dispatch r s))) as [m|] eqn:Hs1; [|congruence].
      destruct (serve_warm rest _ m Hs1) as (_ & Hn2 & _). lia.
Qed.

(** ** The entry point *)

Variable HOST : string.
Variable PORT : Z.

Abbreviation main := (main MODEL_NAME SentenceTransformer_new HOST PORT).

(** X10.  If the model cannot be loaded at startup, the script logs the
    failure and exits with status 1; [app.run] plays no part, so no server
    is started. *)
Theorem main_exits_when_load_fails s e :
  model s = None ->
  SentenceTransformer_new MODEL_NAME (loads s) = inl e ->
  exists s',
    (forall app_run, main app_run s = (Exit 1, s')) /\
    model s' = None /\
    last (trace s') =
      Some (LogError ("Failed to start server: " +:+ exn_str e)).
Proof.
  intros Hm Hnew.
  destruct (load_model_cold_fail _ _ _ _ Hm Hnew) as (s1 & Hl & Hm1 & _).
  eexists. split; [|split].
  - intros app_run. unfold App.main. rewrite Hl. reflexivity.
  - exact Hm1.
  - apply last_snoc.
Qed.

(** X11.  When the model loads at startup, the server is started on a
    process whose model is set, after exactly one constructor call.  If
    [app.run] returns, the script ends; if it raises an [Exception], the
    failure is logged and the script exits with status 1; if it raises
    [SystemExit], the script exits with that status and logs nothing.  And
    whatever requests a server handles one after another before it
    returns, the constructor has been called exactly once when it stops,
    and the handle is still the one loaded at startup. *)
Theorem entry_point_loads_exactly_once s m :
  model s = None ->
  SentenceTransformer_new MODEL_NAME (loads s) = inr m ->
  (forall app_run, exists s2,
     model s2 = Some m /\ loads s2 = S (loads s) /\
     main app_run s =
       match app_run s2 with
       | (Returns, s3) => (EndOfScript, s3)
       | (RaisesException e, s3) =>
           (Exit 1,
            emit (LogError ("Failed to start server: " +:+ exn_str e)) s3)
       | (RaisesSystemExit code, s3) => (Exit code, s3)
       end) /\
  (forall requests,
     fst (main (serving requests) s) = EndOfScript /\
     model (snd (main (serving requests) s)) = Some m /\
     loads (snd (main (serving requests) s)) = S (loads s)).
Proof.
  intros Hm Hnew.
  destruct (load_model_cold_ok _ _ _ _ Hm Hnew) as (s1 & Hl & Hm1 & Hn1 & _).
  split.
  - intros app_run. eexists. split; [|split].
    3: { unfold App.main. rewrite Hl. cbv zeta. reflexivity. }
    + exact Hm1.
    + rewrite loads_emit. cbn [is_construct]. lia.
  - intros requests. unfold App.main. rewrite Hl. cbv zeta.
    unfold App.serving. cbn [fst snd].
    set (s2 := emit _ s1).
    assert (Hm2 : model s2 = Some m) by exact Hm1.
    destruct (serve_warm requests s2 m Hm2) as (Hm3 & Hn3 & _).
    split; [reflexivity|]. split; [exact Hm3|].
    rewrite Hn3. unfold s2. rewrite loads_emit. cbn [is_construct]. lia.
Qed.

End Handlers.

(** ** Threads in [load_model] *)

Section Threads.

Context {F : Type}.
Variable MODEL_NAME : string.
Variable SentenceTransformer_new : string -> nat -> exn + SentenceTransformer F.

Abbreviation step := (step MODEL_NAME SentenceTransformer_new).
Abbreviation step_thread := (step_thread MODEL_NAME SentenceTransformer_new).
Abbreviation run := (run MODEL_NAME SentenceTransformer_new).

Lemma step_thread_monotone (c : config F) t :
  (model (fst c) <> None -> model (fst (step_thread c t)) <> None) /\
  (loads (fst c) <= loads (fst (step_thread c t)))%nat.
Proof.
  unfold App.step_thread. destruct (snd c !! t) as [p|]; [|auto].
  destruct (step (fst c) p) as [s' p'] eqn:Hstep. cbn [fst].
  split; [exact (step_keeps_model _ _ _ _ _ _ Hstep)|].
  destruct p; cbn [App.step] in Hstep;
    try (destruct (model (fst c)));
    injection Hstep as <- _;
    rewrite ?loads_emit, ?loads_set_model; cbn [is_construct]; lia.
Qed.

(** X13.  Under any schedule of threads in [load_model], a model that is
    set is never unset again, and the count of constructor calls never
    goes down. *)
Theorem run_never_unsets_model schedule (c : config F) :
  (model (fst c) <> None -> model (fst (run schedule c)) <> None) /\
  (loads (fst c) <= loads (fst (run schedule c)))%nat.
Proof.
  unfold App.run. revert c.
  induction schedule as [|t schedule IH]; intros c; cbn [fold_left].
  - auto.
  - destruct (step_thread_monotone c t) as [Hm Hn].
    destruct (IH (step_thread c t)) as [Hm' Hn']. split; [auto | lia].
Qed.

End Threads.

(** ** The rest of the service at concrete requests *)

Lemma bad_request_changes_nothing_witness :
  status_code (fst (embed Toy.name Toy.always32
                      (inr (embed_body (JStr ""))) cold)) = 400%Z /\
  snd (embed Toy.name Toy.always32 (inr (embed_body (JStr ""))) cold) = cold.
Proof.
  split; [reflexivity|].
  apply (proj1 (bad_request_changes_nothing Toy.name Toy.always32
                  (inr (embed_body (JStr ""))) cold)).
  reflexivity.
Defined.

Lemma internal_error_is_logged_witness :
  encode (Toy.toy_model Float32.of_Z) (JInt 7) None = inl Toy.not_a_string /\
  fst (embed Toy.name Toy.always32 (inr (embed_body (JInt 7))) cold) =
    Response (Error (exn_str Toy.not_a_string)) 500 /\
  last (trace (snd (embed Toy.name Toy.always32
                      (inr (embed_body (JInt 7))) cold))) =
    Some (LogError ("Embedding error: " +:+ exn_str Toy.not_a_string)).
Proof.
  split; [reflexivity|].
  apply (proj1 (proj1 (internal_error_is_logged Toy.name Toy.always32
                         (inr (embed_body (JInt 7))) cold))).
  right. exists (embed_body (JInt 7)).
  split; [reflexivity|]. split; [reflexivity|].
  right. exists (JInt 7).
  split; [reflexivity|]. split; [reflexivity|].
  right. exists (Toy.toy_model Float32.of_Z).
  split; reflexivity.
Defined.

Lemma health_reports_witness :
  model (F := spec_float) cold = None /\
  Toy.always32 Toy.name (loads (F := spec_float) cold) =
    inr (Toy.toy_model Float32.of_Z) /\
  fst (health Toy.name Toy.always32 cold) =
    Response (Health "healthy" Toy.name 2) 200 /\
  model (snd (health Toy.name Toy.always32 cold)) =
    Some (Toy.toy_model Float32.of_Z).
Proof.
  split; [reflexivity|]. split; [reflexivity|].
  apply (proj1 (proj2 (health_reports Toy.name Toy.always32 cold))
           (Toy.toy_model Float32.of_Z)).
  right. split; reflexivity.
Defined.

Lemma similarity_fields_check_witness :
  let o : gmap string json := {[ "text1" := JStr "ab" ]} in
  truthy (JObj o) = true /\
  o !! "text2" = None /\
  similarity Toy.name Toy.always32 (inr (JObj o)) cold =
    (Response (Error "Fields 'text1' and 'text2' are required") 400, cold).
Proof.
  cbv zeta. split; [reflexivity|]. split; [reflexivity|].
  destruct (similarity_fields_check Toy.name Toy.always32
              {[ "text1" := JStr "ab" ]} cold) as [_ Hback];
    [reflexivity|].
  apply Hback. right. left. reflexivity.
Defined.

Lemma non_object_body_is_internal_error_witness :
  truthy (JArr [JInt 1]) = true /\
  (forall o, JArr [JInt 1] <> JObj o) /\
  embed_batch Toy.name Toy.always32 (inr (JArr [JInt 1])) cold =
    (Response (Error "'list' object has no attribute 'get'") 500,
     emit (LogError
             "Batch embedding error: 'list' object has no attribute 'get'")
       cold).
Proof.
  split; [reflexivity|]. split; [discriminate|].
  apply (non_object_body_is_internal_error Toy.name Toy.always32
           (JArr [JInt 1]) cold); [reflexivity | discriminate].
Defined.

Lemma serve_keeps_loaded_model_witness :
  let warm := snd (load_model Toy.name Toy.always32 cold) in
  let requests :=
    [GET_health; POST_embed (inr (embed_body (JStr "ab")));
     Unmatched (Exn "NotFound" "404 Not Found");
     POST_similarity (inr (JArr []))] in
  model warm = Some (Toy.toy_model Float32.of_Z) /\
  loads (snd (serve Toy.name Toy.always32 requests warm)) = loads warm.
Proof.
  cbv zeta. split; [reflexivity|].
  apply (serve_keeps_loaded_model Toy.name Toy.always32 _ _
           (Toy.toy_model Float32.of_Z)).
  reflexivity.
Defined.

Lemma serve_loads_at_most_once_witness :
  let requests :=
    [POST_embed (inr (JObj ∅)); POST_embed (inr (embed_body (JStr "ab")));
     GET_health; POST_embed_batch (inr (batch_body (JArr [JStr "a"])))] in
  (forall attempt, exists m, Toy.always32 Toy.name attempt = inr m) /\
  model (F := spec_float) cold = None /\
  (loads (snd (serve Toy.name Toy.always32 requests cold)) <=
   S (loads (F := spec_float) cold))%nat.
Proof.
  cbv zeta.
  assert (Hnew : forall attempt : nat,
            exists m, Toy.always32 Toy.name attempt = inr m)
    by (intros attempt; eexists; reflexivity).
  split; [exact Hnew|]. split; [reflexivity|].
  apply (serve_loads_at_most_once Toy.name Toy.always32);
    [exact Hnew | reflexivity].
Defined.

Lemma main_exits_when_load_fails_witness :
  model (F := spec_float) cold = None /\
  Toy.flaky32 Toy.name (loads (F := spec_float) cold) = inl Toy.offline /\
  exists s',
    (forall app_run,
       main Toy.name Toy.flaky32 "0.0.0.0" 8765 app_run cold = (Exit 1, s')) /\
    model s' = None /\
    last (trace s') =
      Some (LogError ("Failed to start server: " +:+ exn_str Toy.offline)).
Proof.
  split; [reflexivity|]. split; [reflexivity|].
  apply (main_exits_when_load_fails Toy.name Toy.flaky32 "0.0.0.0" 8765
           cold Toy.offline); reflexivity.
Defined.

Lemma entry_point_loads_exactly_once_witness :
  let requests :=
    [POST_embed (inr (embed_body (JStr "ab"))); GET_health;
     POST_similarity (inr (similarity_body (JStr "ab") (JStr "abc")))] in
  model (F := spec_float) cold = None /\
  Toy.always32 Toy.name (loads (F := spec_float) cold) =
    inr (Toy.toy_model Float32.of_Z) /\
  loads (snd (main Toy.name Toy.always32 "0.0.0.0" 8765
                (serving Toy.name Toy.always32 requests) cold)) = 1%nat /\
  fst (main Toy.name Toy.always32 "0.0.0.0" 8765
         (fun s => (RaisesSystemExit 1, s)) cold) = Exit 1 /\
  last (trace (snd (main Toy.name Toy.always32 "0.0.0.0" 8765
                      (fun s => (RaisesSystemExit 1, s)) cold))) =
    Some (LogInfo "Starting server on 0.0.0.0:8765").
Proof.
  cbv zeta. split; [reflexivity|]. split; [reflexivity|].
  destruct (entry_point_loads_exactly_once Toy.name Toy.always32
              "0.0.0.0" 8765 cold (Toy.toy_model Float32.of_Z))
    as [Hrun Hserve]; [reflexivity | reflexivity |].
  split; [apply Hserve|].
  split; [|vm_compute; reflexivity].
  destruct (Hrun (fun s => (RaisesSystemExit 1, s))) as (s2 & _ & _ & ->).
  reflexivity.
Defined.

Lemma run_never_unsets_model_witness :
  let warm := snd (load_model Toy.name Toy.always32 cold) in
  model warm <> None /\
  model (fst (run Toy.name Toy.always32 [0; 1; 1; 0]%nat
                (warm, [AtTest; AtTest]))) <> None.
Proof.
  cbv zeta. split; [discriminate|].
  apply (proj1 (run_never_unsets_model Toy.name Toy.always32 [0; 1; 1; 0]%nat
                  (snd (load_model Toy.name Toy.always32 cold),
                   [AtTest; AtTest]))).
  discriminate.
Defined.
